(** * emocare: the chat function [netlify/functions/chat.js]

    The repository is one serverless handler.  It parses the request body
    as JSON, extracts [text] and [session_id], classifies the text with
    keyword matching ([detectEmotion]), composes a templated reply
    ([generateReply]) and returns a JSON response.

    The handler is embedded as it is written.  The JavaScript built-ins it
    calls ([JSON.parse], [String], [trim], [toLowerCase], [includes],
    [split], [join], [JSON.stringify], [Math.random]) are modelled after
    ECMA-262, as executable functions:

    - a string is the list of its UTF-16 code units;
    - a number is an IEEE 754 binary64 value ([spec_float]);
    - a value read from the body is a JSON tree;
    - an exception is an abrupt completion, caught by the handler's
      [try]/[catch];
    - [Math.random] reads the next element of a sequence of draws, and
      a computation counts the draws it has read.

    The limits of an engine on memory and on the depth of recursion are
    not modelled: ECMA-262 sets none.  An engine ends a conversion of
    arrays nested deeper than its stack allows with a [RangeError];
    the theorems that need a conversion to complete assume that it
    does. *)

From Stdlib Require Import List NArith ZArith Bool String Ascii Lia.
From Stdlib Require Import SpecFloat DecimalString.
Import ListNotations.

Set Warnings "-register-all".

(* ================================================================== *)
(** * Strings *)
(* ================================================================== *)

(** A string is the list of its code units, numbers below 65536. *)
Definition jsstring : Type := list N.

Module JSString.

(** The code units of a code point: itself in the Basic Multilingual
    Plane, a surrogate pair above it. *)
Definition ofCodePoint (cp : N) : jsstring :=
  if (cp <? 0x10000)%N then [cp]
  else [(0xD800 + (cp - 0x10000) / 0x400)%N; (0xDC00 + (cp - 0x10000) mod 0x400)%N].

(** A literal of this file is written as in the source file, which is
    UTF-8: [decode] reads the bytes of the literal into code units. *)
Fixpoint decode (bytes : list N) : jsstring :=
  match bytes with
  | [] => []
  | b :: r1 =>
      if (b <? 0x80)%N then b :: decode r1
      else
        match r1 with
        | [] => [b]
        | c :: r2 =>
            if (b <? 0xE0)%N then
              ofCodePoint ((b mod 0x20) * 0x40 + c mod 0x40) ++ decode r2
            else
              match r2 with
              | [] => [b; c]
              | d :: r3 =>
                  if (b <? 0xF0)%N then
                    ofCodePoint ((b mod 0x10) * 0x1000 + (c mod 0x40) * 0x40 + d mod 0x40)
                      ++ decode r3
                  else
                    match r3 with
                    | [] => [b; c; d]
                    | e :: r4 =>
                        ofCodePoint ((b mod 0x08) * 0x40000 + (c mod 0x40) * 0x1000
                                     + (d mod 0x40) * 0x40 + e mod 0x40)
                          ++ decode r4
                    end
              end
        end
  end.

Definition lit (s : string) : jsstring :=
  decode (map N_of_ascii (list_ascii_of_string s)).

Fixpoint eqb (a b : jsstring) : bool :=
  match a, b with
  | [], [] => true
  | x :: a', y :: b' => N.eqb x y && eqb a' b'
  | _, _ => false
  end.

(** [WhiteSpace] and [LineTerminator] of ECMA-262: what [trim] strips
    and what [\s] matches. *)
Definition isWhiteSpace (c : N) : bool :=
  (N.eqb c 0x0009 || N.eqb c 0x000A || N.eqb c 0x000B || N.eqb c 0x000C ||
   N.eqb c 0x000D || N.eqb c 0x0020 || N.eqb c 0x00A0 || N.eqb c 0x1680 ||
   (N.leb 0x2000 c && N.leb c 0x200A) ||
   N.eqb c 0x2028 || N.eqb c 0x2029 || N.eqb c 0x202F || N.eqb c 0x205F ||
   N.eqb c 0x3000 || N.eqb c 0xFEFF)%N.

Fixpoint trimStart (s : jsstring) : jsstring :=
  match s with
  | [] => []
  | c :: s' => if isWhiteSpace c then trimStart s' else s
  end.

Definition trimEnd (s : jsstring) : jsstring := rev (trimStart (rev s)).

(** [s.trim()] *)
Definition trim (s : jsstring) : jsstring := trimEnd (trimStart s).

(** Lower-casing of one code unit.  The letters [A]-[Z] move to
    [a]-[z].  Two code points outside ASCII have an ASCII letter in
    their lower-case form: KELVIN SIGN (U+212A, to [k]) and LATIN
    CAPITAL LETTER I WITH DOT ABOVE (U+0130, to [i] and U+0307).  Every
    other code unit is kept: the Unicode mapping sends it to code units
    outside ASCII, so the runs of ASCII code units in the result, which
    are all that the search for an ASCII keyword reads, are those of
    [s.toLowerCase()]. *)
Definition lowerUnit (c : N) : jsstring :=
  if (N.leb 0x41 c && N.leb c 0x5A)%N then [(c + 0x20)%N]
  else if N.eqb c 0x212A then [0x6B%N]
  else if N.eqb c 0x0130 then [0x69%N; 0x0307%N]
  else [c].

(** [s.toLowerCase()] *)
Definition toLowerCase (s : jsstring) : jsstring := flat_map lowerUnit s.

Fixpoint startsWith (s w : jsstring) : bool :=
  match w, s with
  | [], _ => true
  | _ :: _, [] => false
  | x :: w', c :: s' => N.eqb x c && startsWith s' w'
  end.

(** [s.includes(w)]: [w] occurs in [s] as a run of consecutive code
    units. *)
Fixpoint includes (s w : jsstring) : bool :=
  startsWith s w ||
  match s with
  | [] => false
  | _ :: s' => includes s' w
  end.

(** [s.split(/\s+/)]: the pieces of [s] between maximal runs of white
    space.  [cur] holds the piece being read, in reverse; [sep] tells
    that the last code unit read was white space.  A run at the start or
    at the end of [s] yields an empty piece there, and the empty string
    yields one empty piece. *)
Fixpoint splitFrom (s : jsstring) (cur : jsstring) (sep : bool) : list jsstring :=
  match s with
  | [] => [rev cur]
  | c :: s' =>
      if isWhiteSpace c then
        if sep then splitFrom s' [] true
        else rev cur :: splitFrom s' [] true
      else splitFrom s' (c :: cur) false
  end.

Definition splitWhiteSpace (s : jsstring) : list jsstring := splitFrom s [] false.

(** [l.join(sep)] on a list of strings *)
Fixpoint join (sep : jsstring) (l : list jsstring) : jsstring :=
  match l with
  | [] => []
  | [x] => x
  | x :: l' => x ++ sep ++ join sep l'
  end.

End JSString.

Definition js (s : string) : jsstring := JSString.lit s.

Arguments js s%_string.

(* ================================================================== *)
(** * Numbers *)
(* ================================================================== *)

Module JSNumber.

(** The Number type: IEEE 754 binary64. *)
Definition t := spec_float.
Definition prec : Z := 53.
Definition emax : Z := 1024.

(** The Number nearest to [num / den], ties to even, with the sign
    [neg]. *)
Definition ofFraction (neg : bool) (num : N) (den : positive) : t :=
  match num with
  | N0 => S754_zero neg
  | Npos p => SFdiv prec emax (S754_finite neg p 0) (S754_finite false den 0)
  end.

(** The Number of the decimal [mant * 10^exp10]. *)
Definition ofDecimal (neg : bool) (mant : N) (exp10 : Z) : t :=
  match mant, exp10 with
  | N0, _ => S754_zero neg
  | _, Zneg e => ofFraction neg mant (10 ^ e)
  | _, _ => ofFraction neg (mant * 10 ^ Z.to_N exp10) 1
  end.

Definition eqb (x y : t) : bool := SFeqb x y.

(** [ToBoolean] of a Number: false on zero and on NaN. *)
Definition toBoolean (x : t) : bool :=
  match x with
  | S754_zero _ | S754_nan => false
  | _ => true
  end.

(** [m * 2^e] as a fraction. *)
Definition fraction (m : positive) (e : Z) : N * N :=
  match e with
  | Zneg k => (Npos m, 2 ^ Npos k)%N
  | _ => (Npos m * 2 ^ Z.to_N e, 1)%N
  end.

(** [p / q < 10^n] *)
Definition below10 (p q : N) (n : Z) : bool :=
  match n with
  | Zneg k => (p * 10 ^ Npos k <? q)%N
  | _ => (p <? q * 10 ^ Z.to_N n)%N
  end.

(** The least [n], from [n0] on, with [p / q < 10^n]. *)
Fixpoint magnitudeFrom (fuel : nat) (p q : N) (n0 : Z) : Z :=
  match fuel with
  | O => n0
  | S fuel' => if below10 p q n0 then n0 else magnitudeFrom fuel' p q (n0 + 1)
  end.

(** The [n] with [10^(n-1) <= p / q < 10^n].  The search starts below
    it, at an estimate from the binary logarithms that is less than 8
    away. *)
Definition magnitude (p q : N) : Z :=
  let lg := (Z.of_N (N.log2 p) - Z.of_N (N.log2 q))%Z in
  magnitudeFrom 8 p q (((lg - 1) * 30103) / 100000 - 1)%Z.

(** [floor (p / q / 10^t)] *)
Definition scaled (p q : N) (t : Z) : N :=
  match t with
  | Zneg k => ((p * 10 ^ Npos k) / q)%N
  | _ => (p / (q * 10 ^ Z.to_N t))%N
  end.

(** [2 * p / q] against [(2 * lo + 1) * 10^t]: which of [lo] and
    [lo + 1], scaled by [10^t], is nearer to [p / q]. *)
Definition nearer (p q lo : N) (t : Z) : comparison :=
  match t with
  | Zneg k => (2 * p * 10 ^ Npos k ?= (2 * lo + 1) * q)%N
  | _ => (2 * p ?= (2 * lo + 1) * q * 10 ^ Z.to_N t)%N
  end.

(** The digits of [Number::toString]: the least [k], and for it the
    [s] with [k] digits and the [n], such that [s * 10^(n-k)] is read
    back as [x]; of two such [s] the one nearer to [x].  The search
    goes from [k] to [k + fuel]; 17 digits identify every binary64
    value. *)
Fixpoint shortest (fuel : nat) (x : t) (p q : N) (n : Z) (k : N) : N * Z :=
  let e10 := (n - Z.of_N k)%Z in
  let lo := scaled p q e10 in
  let hi := (lo + 1)%N in
  let oklo := eqb (ofDecimal false lo e10) x in
  let okhi := eqb (ofDecimal false hi e10) x in
  let up := if (hi =? 10 ^ k)%N then ((10 ^ (k - 1))%N, (n + 1)%Z) else (hi, n) in
  match oklo, okhi with
  | true, true =>
      match nearer p q lo e10 with
      | Lt => (lo, n)
      | Gt => up
      | Eq => if N.even lo then (lo, n) else up
      end
  | true, false => (lo, n)
  | false, true => up
  | false, false =>
      match fuel with
      | O => (lo, n)
      | S fuel' => shortest fuel' x p q n (k + 1)
      end
  end.

Definition decimal (n : N) : jsstring :=
  js (NilZero.string_of_uint (N.to_uint n)).

Definition zeros (n : Z) : jsstring := repeat 0x30%N (Z.to_nat n).

(** [Number::toString(x)] of a positive finite [x], in radix 10 *)
Definition toStringPositive (m : positive) (e : Z) : jsstring :=
  let '(p, q) := fraction m e in
  let '(s, n) := shortest 16 (S754_finite false m e) p q (magnitude p q) 1 in
  let ds := decimal s in
  let k := Z.of_nat (List.length ds) in
  if ((k <=? n) && (n <=? 21))%Z then ds ++ zeros (n - k)
  else if ((0 <? n) && (n <=? 21))%Z then
    firstn (Z.to_nat n) ds ++ js "." ++ skipn (Z.to_nat n) ds
  else if ((-6 <? n) && (n <=? 0))%Z then js "0." ++ zeros (- n) ++ ds
  else
    let ex := js "e" ++ (if (n - 1 <? 0)%Z then js "-" else js "+")
              ++ decimal (Z.abs_N (n - 1)) in
    if (k =? 1)%Z then ds ++ ex
    else firstn 1 ds ++ js "." ++ skipn 1 ds ++ ex.

(** [Number::toString(x)] *)
Definition toString (x : t) : jsstring :=
  match x with
  | S754_nan => js "NaN"
  | S754_zero _ => js "0"
  | S754_infinity neg => (if neg then js "-" else []) ++ js "Infinity"
  | S754_finite neg m e => (if neg then js "-" else []) ++ toStringPositive m e
  end.

End JSNumber.

(* ================================================================== *)
(** * Completions *)
(* ================================================================== *)

(** The exceptions that the built-ins of this program can throw. *)
Inductive exception := SyntaxError | TypeError.

(** An expression completes normally with a value or abruptly with an
    exception. *)
Inductive completion (A : Type) :=
| Normal (a : A)
| Throw (e : exception).

Arguments Normal {A} a.
Arguments Throw {A} e.

(* ================================================================== *)
(** * JSON *)
(* ================================================================== *)

Module JSON.

(** What [JSON.parse] returns.  The members of an object are kept in
    the order of the text. *)
Inductive value :=
| Null
| Bool (b : bool)
| Number (x : JSNumber.t)
| String (s : jsstring)
| Array (l : list value)
| Object (m : list (jsstring * value)).

(** The value of the member [key]: as [JSON.parse] defines the members
    one after the other, the last one of that name. *)
Fixpoint lookup (key : jsstring) (m : list (jsstring * value)) : option value :=
  match m with
  | [] => None
  | (k, v) :: m' =>
      match lookup key m' with
      | Some v' => Some v'
      | None => if JSString.eqb k key then Some v else None
      end
  end.

Section Parse.
Local Open Scope N_scope.

Definition isSpace (c : N) : bool :=
  (c =? 0x20) || (c =? 0x09) || (c =? 0x0A) || (c =? 0x0D).

Fixpoint skipSpace (s : jsstring) : jsstring :=
  match s with
  | [] => []
  | c :: s' => if isSpace c then skipSpace s' else s
  end.

Definition isDigit (c : N) : bool := (0x30 <=? c) && (c <=? 0x39).

(** The longest run of digits at the start of [s]: its value after
    [acc], its length after [count], and what follows it. *)
Fixpoint digits (s : jsstring) (acc count : N) : N * N * jsstring :=
  match s with
  | [] => (acc, count, [])
  | c :: s' =>
      if isDigit c then digits s' (acc * 10 + (c - 0x30)) (count + 1)
      else (acc, count, s)
  end.

Definition hexValue (c : N) : option N :=
  if isDigit c then Some (c - 0x30)
  else if (0x41 <=? c) && (c <=? 0x46) then Some (c - 0x41 + 10)
  else if (0x61 <=? c) && (c <=? 0x66) then Some (c - 0x61 + 10)
  else None.

(** A string, after its opening quote: the code units up to the
    closing quote, with the escapes replaced. *)
Fixpoint chars (s acc : jsstring) : option (jsstring * jsstring) :=
  match s with
  | [] => None
  | c :: s1 =>
      if c =? 0x22 then Some (rev acc, s1)
      else if c =? 0x5C then
        match s1 with
        | [] => None
        | e :: s2 =>
            if e =? 0x22 then chars s2 (0x22 :: acc)
            else if e =? 0x5C then chars s2 (0x5C :: acc)
            else if e =? 0x2F then chars s2 (0x2F :: acc)
            else if e =? 0x62 then chars s2 (0x08 :: acc)
            else if e =? 0x66 then chars s2 (0x0C :: acc)
            else if e =? 0x6E then chars s2 (0x0A :: acc)
            else if e =? 0x72 then chars s2 (0x0D :: acc)
            else if e =? 0x74 then chars s2 (0x09 :: acc)
            else if e =? 0x75 then
              match s2 with
              | h1 :: h2 :: h3 :: h4 :: s3 =>
                  match hexValue h1, hexValue h2, hexValue h3, hexValue h4 with
                  | Some a, Some b, Some c', Some d =>
                      chars s3 ((((a * 16 + b) * 16 + c') * 16 + d) :: acc)
                  | _, _, _, _ => None
                  end
              | _ => None
              end
            else None
        end
      else if c <? 0x20 then None
      else chars s1 (c :: acc)
  end.

Definition sign (s : jsstring) : bool * jsstring :=
  match s with
  | c :: s' => if c =? 0x2D then (true, s') else (false, s)
  | [] => (false, s)
  end.

(** The fraction of a number: a point and one digit or more.  [int] is
    the value read so far. *)
Definition fractionPart (int : N) (s : jsstring) : option (N * N * jsstring) :=
  match s with
  | c :: s' =>
      if c =? 0x2E then
        let '(v, n, r) := digits s' int 0 in
        if n =? 0 then None else Some (v, n, r)
      else Some (int, 0, s)
  | [] => Some (int, 0, s)
  end.

(** The exponent of a number: [e] or [E], a sign or none, and one
    digit or more. *)
Definition exponentPart (s : jsstring) : option (Z * jsstring) :=
  match s with
  | c :: s' =>
      if (c =? 0x65) || (c =? 0x45) then
        let '(neg, s1) :=
          match s' with
          | d :: r => if d =? 0x2D then (true, r)
                      else if d =? 0x2B then (false, r) else (false, s')
          | [] => (false, s')
          end in
        let '(v, n, r) := digits s1 0 0 in
        if n =? 0 then None
        else Some (if neg then (- Z.of_N v)%Z else Z.of_N v, r)
      else Some (0%Z, s)
  | [] => Some (0%Z, s)
  end.

(** The integer part of a number: [0], or a digit that is not [0] and
    the digits after it. *)
Definition integerPart (s : jsstring) : option (N * jsstring) :=
  match s with
  | c :: s1 =>
      if isDigit c then
        if c =? 0x30 then Some (0, s1)
        else let '(v, _, r) := digits s 0 0 in Some (v, r)
      else None
  | [] => None
  end.

(** A number: sign, integer part, fraction, exponent. *)
Definition number (s : jsstring) : option (JSNumber.t * jsstring) :=
  let '(neg, s0) := sign s in
  match integerPart s0 with
  | None => None
  | Some (int, s2) =>
      match fractionPart int s2 with
      | None => None
      | Some (mant, nfrac, s3) =>
          match exponentPart s3 with
          | None => None
          | Some (e10, rest) =>
              Some (JSNumber.ofDecimal neg mant (e10 - Z.of_N nfrac), rest)
          end
      end
  end.

(** A value, and what follows it in the text.  Every call uses up one
    of [fuel]. *)
Fixpoint element (fuel : nat) (s : jsstring) {struct fuel}
  : option (value * jsstring) :=
  match fuel with
  | O => None
  | S fuel' =>
      match skipSpace s with
      | [] => None
      | c :: s1 =>
          if c =? 0x7B then
            match skipSpace s1 with
            | [] => None
            | c2 :: s2 =>
                if c2 =? 0x7D then Some (Object [], s2)
                else members fuel' (c2 :: s2) []
            end
          else if c =? 0x5B then
            match skipSpace s1 with
            | [] => None
            | c2 :: s2 =>
                if c2 =? 0x5D then Some (Array [], s2)
                else elements fuel' (c2 :: s2) []
            end
          else if c =? 0x22 then
            match chars s1 [] with
            | Some (str, r) => Some (String str, r)
            | None => None
            end
          else if JSString.startsWith (c :: s1) (js "true") then
            Some (Bool true, skipn 4 (c :: s1))
          else if JSString.startsWith (c :: s1) (js "false") then
            Some (Bool false, skipn 5 (c :: s1))
          else if JSString.startsWith (c :: s1) (js "null") then
            Some (Null, skipn 4 (c :: s1))
          else
            match number (c :: s1) with
            | Some (x, r) => Some (Number x, r)
            | None => None
            end
      end
  end

(** The elements of an array after [acc], up to the closing bracket. *)
with elements (fuel : nat) (s : jsstring) (acc : list value) {struct fuel}
  : option (value * jsstring) :=
  match fuel with
  | O => None
  | S fuel' =>
      match element fuel' s with
      | None => None
      | Some (v, r) =>
          match skipSpace r with
          | [] => None
          | c :: r1 =>
              if c =? 0x2C then elements fuel' r1 (v :: acc)
              else if c =? 0x5D then Some (Array (rev (v :: acc)), r1)
              else None
          end
      end
  end

(** The members of an object after [acc], up to the closing brace. *)
with members (fuel : nat) (s : jsstring) (acc : list (jsstring * value))
  {struct fuel} : option (value * jsstring) :=
  match fuel with
  | O => None
  | S fuel' =>
      match skipSpace s with
      | [] => None
      | q :: s1 =>
          if q =? 0x22 then
            match chars s1 [] with
            | None => None
            | Some (key, r) =>
                match skipSpace r with
                | [] => None
                | colon :: r1 =>
                    if colon =? 0x3A then
                      match element fuel' r1 with
                      | None => None
                      | Some (v, r2) =>
                          match skipSpace r2 with
                          | [] => None
                          | c :: r3 =>
                              if c =? 0x2C then
                                members fuel' r3 ((key, v) :: acc)
                              else if c =? 0x7D then
                                Some (Object (rev ((key, v) :: acc)), r3)
                              else None
                          end
                      end
                    else None
                end
            end
          else None
      end
  end.

End Parse.

(** [JSON.parse(text)]: the value of the text, or a [SyntaxError] when
    the text is not one JSON value between white space.  The fuel covers
    every text: more fuel gives the same result ([parse_fuel] below). *)
Definition parse (text : jsstring) : completion value :=
  match element (2 * List.length text + 2) text with
  | Some (v, rest) =>
      match skipSpace rest with
      | [] => Normal v
      | _ :: _ => Throw SyntaxError
      end
  | None => Throw SyntaxError
  end.

Section Stringify.
Local Open Scope N_scope.

Definition hexDigit (n : N) : N :=
  if n <? 10 then 0x30 + n else 0x61 + (n - 10).

Definition unicodeEscape (c : N) : jsstring :=
  [0x5C; 0x75; hexDigit (c / 0x1000 mod 16); hexDigit (c / 0x100 mod 16);
   hexDigit (c / 0x10 mod 16); hexDigit (c mod 16)].

Definition isLeadingSurrogate (c : N) : bool := (0xD800 <=? c) && (c <=? 0xDBFF).
Definition isTrailingSurrogate (c : N) : bool := (0xDC00 <=? c) && (c <=? 0xDFFF).

(** The inside of [QuoteJSONString]. *)
Fixpoint escape (s : jsstring) : jsstring :=
  match s with
  | [] => []
  | c :: s1 =>
      if c =? 0x08 then [0x5C; 0x62] ++ escape s1
      else if c =? 0x09 then [0x5C; 0x74] ++ escape s1
      else if c =? 0x0A then [0x5C; 0x6E] ++ escape s1
      else if c =? 0x0C then [0x5C; 0x66] ++ escape s1
      else if c =? 0x0D then [0x5C; 0x72] ++ escape s1
      else if c =? 0x22 then [0x5C; 0x22] ++ escape s1
      else if c =? 0x5C then [0x5C; 0x5C] ++ escape s1
      else if c <? 0x20 then unicodeEscape c ++ escape s1
      else if isLeadingSurrogate c then
        match s1 with
        | d :: s2 =>
            if isTrailingSurrogate d then c :: d :: escape s2
            else unicodeEscape c ++ escape s1
        | [] => unicodeEscape c
        end
      else if isTrailingSurrogate c then unicodeEscape c ++ escape s1
      else c :: escape s1
  end.

Definition quote (s : jsstring) : jsstring := [0x22] ++ escape s ++ [0x22].

End Stringify.

(** [JSON.stringify(v)], without indentation.  The members of an object
    are written in the order of the list, which for an object literal
    with names that are no array indices is the order of the source. *)
Fixpoint stringify (v : value) : jsstring :=
  match v with
  | Null => js "null"
  | Bool true => js "true"
  | Bool false => js "false"
  | Number x =>
      match x with
      | S754_finite _ _ _ | S754_zero _ => JSNumber.toString x
      | _ => js "null"
      end
  | String s => quote s
  | Array l => js "[" ++ JSString.join (js ",") (map stringify l) ++ js "]"
  | Object m =>
      js "{"
      ++ JSString.join (js ",")
           (map (fun kv => quote (fst kv) ++ js ":" ++ stringify (snd kv)) m)
      ++ js "}"
  end.

End JSON.

(* ================================================================== *)
(** * Values, conversions and effects *)
(* ================================================================== *)

Module JS.

(** [ToBoolean] *)
Definition toBoolean (v : JSON.value) : bool :=
  match v with
  | JSON.Null => false
  | JSON.Bool b => b
  | JSON.Number x => JSNumber.toBoolean x
  | JSON.String s => negb (JSString.eqb s [])
  | JSON.Array _ | JSON.Object _ => true
  end.

(** [data.key], for a [key] that no prototype defines, as [text] and
    [session_id]: the member of an object, [undefined] ([None]) on an
    object without it and on a boolean, a number, a string and an
    array, and a [TypeError] on [null]. *)
Definition get (data : JSON.value) (key : jsstring)
  : completion (option JSON.value) :=
  match data with
  | JSON.Null => Throw TypeError
  | JSON.Object m => Normal (JSON.lookup key m)
  | _ => Normal None
  end.

(** [x || d], where [d] is a literal *)
Definition orElse (x : option JSON.value) (d : JSON.value) : JSON.value :=
  match x with
  | Some v => if toBoolean v then v else d
  | None => d
  end.

(** [Array.prototype.join] with its default separator, the comma.  An
    element that is [null] gives the empty string, any other element is
    converted with [convert]; the first exception ends the join. *)
Fixpoint joinElements (convert : JSON.value -> completion jsstring)
  (l : list JSON.value) : completion jsstring :=
  match l with
  | [] => Normal []
  | x :: l' =>
      match (match x with JSON.Null => Normal [] | _ => convert x end) with
      | Throw e => Throw e
      | Normal sx =>
          match l' with
          | [] => Normal sx
          | _ :: _ =>
              match joinElements convert l' with
              | Throw e => Throw e
              | Normal r => Normal (sx ++ js "," ++ r)
              end
          end
      end
  end.

(** [String(v)], which is [ToString(v)] on these values.  An array is
    converted by [Array.prototype.toString], which joins its elements.
    An object goes through [OrdinaryToPrimitive]: a member named
    [toString] hides [Object.prototype.toString] and, read from JSON,
    is not callable; [valueOf] then is not callable either or returns
    the object, and the conversion throws a [TypeError].  Without such
    a member the result is ["[object Object]"].  The recursion has no
    limit, as in ECMA-262; an engine ends it with a [RangeError] when
    the arrays nest deeper than its stack allows. *)
Fixpoint toString (v : JSON.value) : completion jsstring :=
  match v with
  | JSON.Null => Normal (js "null")
  | JSON.Bool true => Normal (js "true")
  | JSON.Bool false => Normal (js "false")
  | JSON.Number x => Normal (JSNumber.toString x)
  | JSON.String s => Normal s
  | JSON.Array l => joinElements toString l
  | JSON.Object m =>
      match JSON.lookup (js "toString") m with
      | Some _ => Throw TypeError
      | None => Normal (js "[object Object]")
      end
  end.

(** A result of [Math.random()]: a fraction in the interval from 0 to
    1, 1 excluded. *)
Record draw := {
  numerator : N;
  denominator : positive;
  belowOne : (numerator <? Npos denominator)%N = true
}.

(** [Math.floor(r * len)].  The product is taken exactly; the product
    of Numbers is exact when [len] is a power of two, as are the
    lengths of all lists of this program. *)
Definition floorTimes (r : draw) (len : nat) : nat :=
  N.to_nat (numerator r * N.of_nat len / Npos (denominator r)).

(** A computation reads the draws of [Math.random] from a sequence,
    counts how many it has read, and completes normally or abruptly. *)
Definition M (A : Type) : Type := (nat -> draw) -> nat -> completion A * nat.

Definition ret {A} (a : A) : M A := fun _ n => (Normal a, n).

Definition bind {A B} (c : M A) (k : A -> M B) : M B :=
  fun src n =>
    match c src n with
    | (Normal a, n') => k a src n'
    | (Throw e, n') => (Throw e, n')
    end.

Definition lift {A} (c : completion A) : M A := fun _ n => (c, n).

(** [try { c } catch (e) { h e }] *)
Definition tryCatch {A} (c : M A) (h : exception -> M A) : M A :=
  fun src n =>
    match c src n with
    | (Normal a, n') => (Normal a, n')
    | (Throw e, n') => h e src n'
    end.

(** [Math.random()] *)
Definition Math_random : M draw := fun src n => (Normal (src n), S n).

End JS.

Notation "x <- c ;; k" := (JS.bind c (fun x => k))
  (at level 61, c at next level, right associativity).

(* ================================================================== *)
(** * The handler *)
(* ================================================================== *)

(** The double quote, which a literal of this file cannot hold. *)
Definition dquote : jsstring := [0x22%N].

(** The request, as far as the handler reads it: [event.body] is a
    string, or absent ([null] or [undefined]). *)
Record Event := { body : option jsstring }.

Record Response := {
  statusCode : N;
  headers : option (list (jsstring * jsstring));
  responseBody : jsstring
}.

(** An object literal with one list for each label. *)
Record PhraseBank := {
  sad : list jsstring;
  angry : list jsstring;
  anxious : list jsstring;
  happy : list jsstring;
  love : list jsstring;
  surprised : list jsstring;
  neutral : list jsstring
}.

(** The own property [key] of the literal: the list of the label
    [key], and none for another key. *)
Definition entry (bank : PhraseBank) (key : jsstring) : option (list jsstring) :=
  if JSString.eqb key (js "sad") then Some (sad bank)
  else if JSString.eqb key (js "angry") then Some (angry bank)
  else if JSString.eqb key (js "anxious") then Some (anxious bank)
  else if JSString.eqb key (js "happy") then Some (happy bank)
  else if JSString.eqb key (js "love") then Some (love bank)
  else if JSString.eqb key (js "surprised") then Some (surprised bank)
  else if JSString.eqb key (js "neutral") then Some (neutral bank)
  else None.

(** [l.some(w => s.includes(w))] *)
Definition someIncluded (l : list jsstring) (s : jsstring) : bool :=
  existsb (fun w => JSString.includes s w) l.

Definition detectEmotion (t : jsstring) : jsstring :=
  let s := JSString.toLowerCase t in
  if someIncluded [js "sad"; js "unhappy"; js "depressed"; js "cry"; js "lonely"] s
  then js "sad"
  else if someIncluded [js "happy"; js "glad"; js "awesome"; js "great"; js "joy"] s
  then js "happy"
  else if someIncluded [js "angry"; js "mad"; js "furious"; js "annoyed"; js "hate"] s
  then js "angry"
  else if someIncluded [js "anxious"; js "scared"; js "nervous"; js "worried"; js "panic"] s
  then js "anxious"
  else if someIncluded [js "love"; js "luv"] s
  then js "love"
  else if someIncluded [js "surprise"; js "surprised"; js "shocked"] s
  then js "surprised"
  else js "neutral".

Definition VALIDATION : PhraseBank := {|
  sad := [js "I'm really sorry you're going through this.";
          js "That must be so difficult—thank you for sharing."];
  angry := [js "I can hear the anger in your words.";
            js "Anger is a natural reaction."];
  anxious := [js "Being anxious feels overwhelming—you're not alone.";
              js "I hear that worry. Let's try something grounding."];
  happy := [js "That's wonderful to hear!";
            js "I'm glad you're feeling good."];
  love := [js "That's lovely—feeling connected is meaningful.";
           js "Happy you have warmth in your life."];
  surprised := [js "That sounds surprising.";
                js "That must have been unexpected."];
  neutral := [js "I'm here and listening."; js "Thanks for sharing."]
|}.

Definition SUGGESTIONS : PhraseBank := {|
  sad := [js "Would you like a quick breathing exercise?";
          js "Sometimes writing one sentence about what you feel can help."];
  angry := [js "Try slow 4-4-4 breathing.";
            js "Name one thing you can change and one you can't."];
  anxious := [js "Try grounding: 5 things you see, 4 touch, 3 hear.";
              js "Slow deep breaths can help."];
  happy := [js "Want to save this as a happy memory?";
            js "Want to celebrate with a compliment?"];
  love := [js "Would you like to reflect on what made this connection strong?";
           js "Note this as a positive memory?"];
  surprised := [js "Do you want to unpack what surprised you?";
                js "If it's good—congrats! If not, I'm here."];
  neutral := [js "Would you like a prompt—like 'What happened today?'";
              js "We can try a short check-in exercise."]
|}.

(** The names of the properties of [Object.prototype] (ECMA-262,
    20.1.3), which every object literal inherits. *)
Definition prototypeNames : list jsstring :=
  [js "constructor"; js "hasOwnProperty"; js "isPrototypeOf";
   js "propertyIsEnumerable"; js "toLocaleString"; js "toString";
   js "valueOf"; js "__proto__"; js "__defineGetter__";
   js "__defineSetter__"; js "__lookupGetter__"; js "__lookupSetter__"].

(** What [bank[key]] finds: a list of the literal, or a property of
    [Object.prototype], which is a function or, under [__proto__], the
    prototype itself. *)
Inductive property :=
| Phrases (l : list jsstring)
| Inherited.

(** [bank[key]]: the own property, else the inherited one, else
    [undefined] ([None]). *)
Definition lookupKey (bank : PhraseBank) (key : jsstring) : option property :=
  match entry bank key with
  | Some l => Some (Phrases l)
  | None =>
      if existsb (JSString.eqb key) prototypeNames then Some Inherited
      else None
  end.

(** [bank[emotion] || bank.neutral]: a list and an inherited property
    are truthy, [undefined] is not. *)
Definition orNeutral (bank : PhraseBank) (emotion : jsstring) : property :=
  match lookupKey bank emotion with
  | Some v => v
  | None => Phrases (neutral bank)
  end.

(** The elements of [bank[emotion] || bank.neutral]: the phrases of a
    list, and none for an inherited property. *)
Definition phrases (bank : PhraseBank) (emotion : jsstring) : list jsstring :=
  match orNeutral bank emotion with
  | Phrases l => l
  | Inherited => []
  end.

(** [l[Math.floor(r * l.length)]], [undefined] ([None]) outside the
    list *)
Definition pick (l : list jsstring) (r : JS.draw) : option jsstring :=
  nth_error l (JS.floorTimes r (List.length l)).

(** [v[Math.floor(r * v.length)]].  An inherited property has no
    element at any index, so the result is [undefined] whatever the
    index is: [v.length] is 0, 1 or 2 on the functions, and [undefined]
    on the prototype, which makes the index [NaN]. *)
Definition pickFrom (v : property) (r : JS.draw) : option jsstring :=
  match v with
  | Phrases l => pick l r
  | Inherited => None
  end.

(** [const words] of [generateReply] *)
Definition wordsOf (userText : jsstring) : list jsstring :=
  JSString.splitWhiteSpace (JSString.trim userText).

(** [const reflection] of [generateReply] *)
Definition reflection (userText : jsstring) : jsstring :=
  let words := wordsOf userText in
  if (0 <? List.length words)%nat then
    js "You said: " ++ dquote
    ++ JSString.join (js " ") (firstn 12 words)
    ++ (if (12 <? List.length words)%nat then js "..." else [])
    ++ dquote
  else [].

(** [Boolean] on a string or [undefined] *)
Definition truthy (x : option jsstring) : bool :=
  match x with
  | Some (_ :: _) => true
  | _ => false
  end.

(** [l.filter(Boolean)], whose results are strings *)
Definition filterBoolean (l : list (option jsstring)) : list jsstring :=
  flat_map (fun x => match x with
                     | Some s => if truthy x then [s] else []
                     | None => []
                     end) l.

Definition generateReply (userText emotion : jsstring) : JS.M jsstring :=
  let v := orNeutral VALIDATION emotion in
  let s := orNeutral SUGGESTIONS emotion in
  r1 <- JS.Math_random ;;
  let val := pickFrom v r1 in
  r2 <- JS.Math_random ;;
  let sug := pickFrom s r2 in
  JS.ret (JSString.join (js " ")
            (filterBoolean [val; Some (reflection userText); sug])).

(** [event.body || '{}'] *)
Definition bodyOrDefault (event : Event) : jsstring :=
  match body event with
  | Some (c :: b) => c :: b
  | _ => js "{}"
  end.

(** [String(data.text || '').trim()] *)
Definition textOf (data : JSON.value) : completion jsstring :=
  match JS.get data (js "text") with
  | Throw e => Throw e
  | Normal t =>
      match JS.toString (JS.orElse t (JSON.String [])) with
      | Throw e => Throw e
      | Normal s => Normal (JSString.trim s)
      end
  end.

(** [String(data.session_id || 'default_session')] *)
Definition sessionIdOf (data : JSON.value) : completion jsstring :=
  match JS.get data (js "session_id") with
  | Throw e => Throw e
  | Normal i => JS.toString (JS.orElse i (JSON.String (js "default_session")))
  end.

Definition badRequest : Response := {|
  statusCode := 400;
  headers := None;
  responseBody :=
    JSON.stringify (JSON.Object [(js "error", JSON.String (js "No text provided."))])
|}.

Definition serverError : Response := {|
  statusCode := 500;
  headers := None;
  responseBody :=
    JSON.stringify (JSON.Object [(js "error", JSON.String (js "Server error."))])
|}.

Definition success (emotion reply : jsstring) : Response := {|
  statusCode := 200;
  headers := Some [(js "Content-Type", js "application/json")];
  responseBody :=
    JSON.stringify
      (JSON.Object [(js "emotion", JSON.String emotion);
                    (js "scores", JSON.Object []);
                    (js "reply", JSON.String reply);
                    (js "history", JSON.Array [])])
|}.

(** The [try] block, from the parsed [data] on. *)
Definition respond (data : JSON.value) : JS.M Response :=
  text <- JS.lift (textOf data) ;;
  sessionId <- JS.lift (sessionIdOf data) ;;
  if JSString.eqb text [] then JS.ret badRequest
  else
    let emotion := detectEmotion text in
    reply <- generateReply text emotion ;;
    JS.ret (success emotion reply).

(** [exports.handler] *)
Definition handler (event : Event) : JS.M Response :=
  JS.tryCatch
    (data <- JS.lift (JSON.parse (bodyOrDefault event)) ;;
     respond data)
    (fun e => JS.ret serverError).

(* ================================================================== *)
(** * The words of the specification *)
(* ================================================================== *)

(** The seven values of [EmotionLabel]. *)
Definition EmotionLabels : list jsstring :=
  [js "sad"; js "happy"; js "angry"; js "anxious"; js "love";
   js "surprised"; js "neutral"].

Definition sadWords : list jsstring :=
  [js "sad"; js "unhappy"; js "depressed"; js "cry"; js "lonely"].

Definition happyWords : list jsstring :=
  [js "happy"; js "glad"; js "awesome"; js "great"; js "joy"].

(** The keyword sets, in the order of their priority. *)
Definition keywordSets : list (jsstring * list jsstring) :=
  [(js "sad", sadWords);
   (js "happy", happyWords);
   (js "angry", [js "angry"; js "mad"; js "furious"; js "annoyed"; js "hate"]);
   (js "anxious", [js "anxious"; js "scared"; js "nervous"; js "worried"; js "panic"]);
   (js "love", [js "love"; js "luv"]);
   (js "surprised", [js "surprise"; js "surprised"; js "shocked"])].

(** The label of the first set with a keyword that occurs in [s], and
    [neutral] when there is none. *)
Fixpoint firstMatch (sets : list (jsstring * list jsstring)) (s : jsstring)
  : jsstring :=
  match sets with
  | [] => js "neutral"
  | (label, ws) :: sets' =>
      if existsb (fun w => JSString.includes s w) ws then label
      else firstMatch sets' s
  end.

(** [classify] as the specification defines it. *)
Definition classify (text : jsstring) : jsstring :=
  firstMatch keywordSets (JSString.toLowerCase text).

(** The entries of a phrase table, by their labels. *)
Definition entries (bank : PhraseBank) : list (jsstring * list jsstring) :=
  [(js "sad", sad bank); (js "angry", angry bank); (js "anxious", anxious bank);
   (js "happy", happy bank); (js "love", love bank);
   (js "surprised", surprised bank); (js "neutral", neutral bank)].

(** The list of a label in a phrase table as the specification defines
    it: the entry of the label, and the neutral list when the label has
    no entry. *)
Definition listFor (bank : PhraseBank) (label : jsstring) : list jsstring :=
  match find (fun e => JSString.eqb label (fst e)) (entries bank) with
  | Some e => snd e
  | None => neutral bank
  end.

(** [text] contains [w] when case is ignored. *)
Definition containsIgnoringCase (text w : jsstring) : bool :=
  JSString.includes (JSString.toLowerCase text) (JSString.toLowerCase w).

(** The pieces that are not empty. *)
Definition nonEmptyPieces (l : list jsstring) : list jsstring :=
  filter (fun p => negb (JSString.eqb p [])) l.

(** A literal between double quotes. *)
Definition quoted (s : string) : jsstring := dquote ++ js s ++ dquote.
Arguments quoted s%_string.

(** The text of a member and of an object, to write bodies. *)
Definition member (key : string) (value : jsstring) : jsstring :=
  quoted key ++ js ":" ++ value.
Arguments member key%_string value.

Definition object (members : list jsstring) : jsstring :=
  js "{" ++ JSString.join (js ",") members ++ js "}".

(** [{"toString":1}] *)
Definition unconvertible : jsstring := object [member "toString" (js "1")].

(** [{"session_id":{"toString":1}}] *)
Definition bodySessionOnly : jsstring :=
  object [member "session_id" unconvertible].

(** [{"text":"hi"}] *)
Definition bodyHi : jsstring := object [member "text" (quoted "hi")].

(** [{"text":"hi","session_id":{"toString":1}}] *)
Definition bodyHiSession : jsstring :=
  object [member "text" (quoted "hi"); member "session_id" unconvertible].

(** [{"text":0,"session_id":{"toString":1}}] *)
Definition bodyZeroSession : jsstring :=
  object [member "text" (js "0"); member "session_id" unconvertible].



(** [{"text":false}] *)
Definition bodyFalse : jsstring := object [member "text" (js "false")].

(** [{"text":" I am so sad today "}] *)
Definition bodySad : jsstring :=
  object [member "text" (quoted " I am so sad today ")].

(** [{"text":"I love you"}] *)
Definition bodyLove : jsstring := object [member "text" (quoted "I love you")].

(** [{"session_id":[null,7,{}],"text":"I love you"}] *)
Definition bodyLoveSession : jsstring :=
  object [member "session_id" (js "[null,7,{}]");
          member "text" (quoted "I love you")].

(** The members of an object but [session_id]. *)
Definition withoutSessionId (m : list (jsstring * JSON.value))
  : list (jsstring * JSON.value) :=
  filter (fun kv => negb (JSString.eqb (fst kv) (js "session_id"))) m.

(** The values that [String] converts without an exception: no object
    with a member named [toString], at the top or in an array. *)
Fixpoint convertible (v : JSON.value) : bool :=
  match v with
  | JSON.Array l => forallb convertible l
  | JSON.Object m =>
      match JSON.lookup (js "toString") m with
      | Some _ => false
      | None => true
      end
  | _ => true
  end.

(** A word: one code unit or more, none of them white space. *)
Definition isWord (w : jsstring) : bool :=
  negb (JSString.eqb w []) && forallb (fun c => negb (JSString.isWhiteSpace c)) w.

(** The request with the body [b]. *)
Definition request (b : jsstring) : Event := {| body := Some b |}.

(** Two draws and a sequence of draws for the examples. *)
Definition half : JS.draw :=
  {| JS.numerator := 1; JS.denominator := 2; JS.belowOne := eq_refl |}.

Definition third : JS.draw :=
  {| JS.numerator := 1; JS.denominator := 3; JS.belowOne := eq_refl |}.

Definition draws (n : nat) : JS.draw :=
  match n with
  | O => half
  | S _ => third
  end.

(** The keywords of all sets. *)
Definition allKeywords : list jsstring := flat_map snd keywordSets.

(** The rank of a label in the order of the tests: 0 for [sad], 5 for
    [surprised], 6 for [neutral] and for every other string. *)
Definition rank (label : jsstring) : nat :=
  if JSString.eqb label (js "sad") then 0
  else if JSString.eqb label (js "happy") then 1
  else if JSString.eqb label (js "angry") then 2
  else if JSString.eqb label (js "anxious") then 3
  else if JSString.eqb label (js "love") then 4
  else if JSString.eqb label (js "surprised") then 5
  else 6.

(** Two code units that are equal, or the two cases of one ASCII
    letter. *)
Definition sameLetter (a b : N) : bool :=
  (a =? b)%N
  || ((0x41 <=? a)%N && (a <=? 0x5A)%N && (b =? a + 0x20)%N)
  || ((0x41 <=? b)%N && (b <=? 0x5A)%N && (a =? b + 0x20)%N).

(** Two strings that differ in the case of ASCII letters at most. *)
Fixpoint sameLetters (s t : jsstring) : bool :=
  match s, t with
  | [], [] => true
  | a :: s', b :: t' => sameLetter a b && sameLetters s' t'
  | _, _ => false
  end.

(** A member that makes [String(x || d)] throw: a value that is there,
    is truthy and is not convertible. *)
Definition blocks (x : option JSON.value) : bool :=
  match x with
  | Some v => JS.toBoolean v && negb (convertible v)
  | None => false
  end.

(** A member that [String(x || d)] can fail on: an array, or an object
    with a member named [toString]. *)
Definition compound (x : option JSON.value) : bool :=
  match x with
  | Some (JSON.Array _) => true
  | Some (JSON.Object m) =>
      match JSON.lookup (js "toString") m with
      | Some _ => true
      | None => false
      end
  | _ => false
  end.


(** A draw below one half. *)
Definition belowHalf (r : JS.draw) : bool :=
  (2 * JS.numerator r <? Npos (JS.denominator r))%N.

(** The sequence that repeats one draw. *)
Definition always (r : JS.draw) (n : nat) : JS.draw := r.

(** A string that is empty or ends with a code unit that is no white
    space. *)
Definition endsInWord (s : jsstring) : bool :=
  match s with
  | [] => true
  | _ :: _ => negb (JSString.isWhiteSpace (last s 0%N))
  end.

(** The index that a draw selects in a list of two. *)
Definition indexOfTwo (r : JS.draw) : nat := if belowHalf r then 0 else 1.


(** The keyword sets without the keyword [surprised]. *)
Definition withoutSurprised : list (jsstring * list jsstring) :=
  firstn 5 keywordSets ++ [(js "surprised", [js "surprise"; js "shocked"])].

(* ================================================================== *)
(** * The built-ins on examples *)
(* ================================================================== *)

Example trim_example :
  JSString.trim (js "  I am sad  ") = js "I am sad".
Proof. vm_compute. reflexivity. Qed.

Example split_example :
  JSString.splitWhiteSpace (js "a  b c") = [js "a"; js "b"; js "c"]
  /\ JSString.splitWhiteSpace (js " a") = [[]; js "a"]
  /\ JSString.splitWhiteSpace [] = [[]].
Proof. repeat split; vm_compute; reflexivity. Qed.

Example toLowerCase_example :
  JSString.toLowerCase (js "I am SAD") = js "i am sad"
  /\ JSString.toLowerCase (js "SHOC" ++ [0x212A%N] ++ js "ED") = js "shocked".
Proof. split; vm_compute; reflexivity. Qed.

Example literal_example :
  js "good—congrats" = js "good" ++ [0x2014%N] ++ js "congrats".
Proof. vm_compute. reflexivity. Qed.

Example number_examples :
  JSNumber.toString (JSNumber.ofDecimal false 1 (-1)) = js "0.1"
  /\ JSNumber.toString (JSNumber.ofDecimal false 1 21) = js "1e+21"
  /\ JSNumber.toString (JSNumber.ofDecimal true 123456 (-3)) = js "-123.456"
  /\ JSNumber.toString (JSNumber.ofDecimal false 12345678901234567890 0)
     = js "12345678901234567000"
  /\ JSNumber.ofDecimal false 1 (-400) = S754_zero false
  /\ JSNumber.ofDecimal false 1 400 = S754_infinity false.
Proof. repeat split; vm_compute; reflexivity. Qed.

Example parse_examples :
  JSON.parse (js "{}") = Normal (JSON.Object [])
  /\ JSON.parse (js "null") = Normal JSON.Null
  /\ JSON.parse (js " [true, false, null, 0] ")
     = Normal (JSON.Array [JSON.Bool true; JSON.Bool false; JSON.Null;
                           JSON.Number (S754_zero false)])
  /\ JSON.parse (js "{" ++ quoted "text" ++ js ":" ++ quoted "aA\n"
                 ++ js "," ++ quoted "x" ++ js ":{}}")
     = Normal (JSON.Object [(js "text", JSON.String [0x61; 0x41; 0x0A]%N);
                            (js "x", JSON.Object [])])
  /\ JSON.parse (object [member "text" (quoted "a"); member "text" (quoted "b")])
     = Normal (JSON.Object [(js "text", JSON.String (js "a"));
                            (js "text", JSON.String (js "b"))])
  /\ JSON.lookup (js "text") [(js "text", JSON.String (js "a"));
                              (js "text", JSON.String (js "b"))]
     = Some (JSON.String (js "b"))
  /\ JSON.parse (js "[1,]") = Throw SyntaxError
  /\ JSON.parse (js "01") = Throw SyntaxError
  /\ JSON.parse (js "{'text':1}") = Throw SyntaxError
  /\ JSON.parse (js "not json") = Throw SyntaxError
  /\ JSON.parse [] = Throw SyntaxError.
Proof. repeat split; vm_compute; reflexivity. Qed.

Example toString_examples :
  JS.toString (JSON.Array [JSON.Null; JSON.Bool true; JSON.Array []; JSON.String (js "a")])
  = Normal (js ",true,,a")
  /\ JS.toString (JSON.Object []) = Normal (js "[object Object]")
  /\ JS.toString (JSON.Object [(js "toString", JSON.Null)]) = Throw TypeError
  /\ JS.toString (JSON.Array [JSON.Object [(js "toString", JSON.Bool true)]])
     = Throw TypeError.
Proof. repeat split; vm_compute; reflexivity. Qed.

Example stringify_example :
  JSON.stringify (JSON.Object [(js "error", JSON.String (js "No text provided."))])
  = js "{" ++ dquote ++ js "error" ++ dquote ++ js ":" ++ dquote
    ++ js "No text provided." ++ dquote ++ js "}".
Proof. vm_compute. reflexivity. Qed.

(* ================================================================== *)
(** * Lemmas on the built-ins *)
(* ================================================================== *)

Lemma eqb_nil (s : jsstring) : JSString.eqb s [] = true <-> s = [].
Proof. destruct s; simpl; split; intros H; congruence. Qed.

Lemma eqb_refl (s : jsstring) : JSString.eqb s s = true.
Proof. induction s; simpl; [reflexivity | now rewrite N.eqb_refl]. Qed.

Lemma eqb_eq (a b : jsstring) : JSString.eqb a b = true <-> a = b.
Proof.
  split; [| intros ->; apply eqb_refl].
  revert b; induction a as [| x a IH]; intros [| y b]; simpl; try congruence.
  intros H. apply andb_true_iff in H as [Hx Hab].
  apply N.eqb_eq in Hx. apply IH in Hab. congruence.
Qed.

(** [split] returns one piece at least. *)
Lemma splitFrom_not_nil (s cur : jsstring) (sep : bool) :
  JSString.splitFrom s cur sep <> [].
Proof.
  revert cur sep; induction s as [| c s IH]; intros cur sep; simpl.
  - discriminate.
  - destruct (JSString.isWhiteSpace c); [destruct sep |]; auto; discriminate.
Qed.

Lemma wordsOf_length (userText : jsstring) : (0 < List.length (wordsOf userText))%nat.
Proof.
  unfold wordsOf, JSString.splitWhiteSpace.
  pose proof (splitFrom_not_nil (JSString.trim userText) [] false) as H.
  destruct (JSString.splitFrom _ _ _); [congruence | simpl; lia].
Qed.

(** The index of a draw lies inside a list that is not empty. *)
Lemma floorTimes_lt (r : JS.draw) (len : nat) :
  (0 < len)%nat -> (JS.floorTimes r len < len)%nat.
Proof.
  intros Hlen. unfold JS.floorTimes.
  destruct r as [num den Hr]; simpl.
  apply N.ltb_lt in Hr.
  assert (num * N.of_nat len / N.pos den < N.of_nat len)%N as H.
  { apply N.Div0.div_lt_upper_bound.
    apply N.mul_lt_mono_pos_r; lia. }
  lia.
Qed.

Lemma pick_In (l : list jsstring) (r : JS.draw) :
  l <> [] -> exists x, pick l r = Some x /\ In x l.
Proof.
  intros Hl. unfold pick.
  assert (JS.floorTimes r (List.length l) < List.length l)%nat as H.
  { apply floorTimes_lt. destruct l; [congruence | simpl; lia]. }
  destruct (nth_error l (JS.floorTimes r (List.length l))) as [x |] eqn:E.
  - exists x. split; [reflexivity | eapply nth_error_In; eassumption].
  - apply nth_error_None in E. lia.
Qed.

(** [Math.floor(r * 2)] is 0 below one half and 1 from there on. *)
Lemma floorTimes_two (r : JS.draw) : JS.floorTimes r 2 = indexOfTwo r.
Proof.
  unfold JS.floorTimes, indexOfTwo, belowHalf.
  destruct r as [num den Hr]; simpl JS.numerator; simpl JS.denominator.
  apply N.ltb_lt in Hr.
  change (N.of_nat 2) with 2%N.
  destruct (N.ltb_spec (2 * num) (N.pos den)) as [H | H].
  - rewrite N.div_small by lia. reflexivity.
  - assert (num * 2 / N.pos den = 1)%N as ->; [| reflexivity].
    symmetry. apply (N.div_unique _ _ _ (num * 2 - N.pos den)); lia.
Qed.

Lemma pick_two (l : list jsstring) (r : JS.draw) :
  List.length l = 2%nat -> pick l r = Some (nth (indexOfTwo r) l []).
Proof.
  intros Hl. unfold pick. rewrite Hl, floorTimes_two.
  destruct l as [| a [| b [| c l]]]; try discriminate.
  unfold indexOfTwo. destruct (belowHalf r); reflexivity.
Qed.

Lemma pick_nil (r : JS.draw) : pick [] r = None.
Proof. unfold pick. destruct (JS.floorTimes r (List.length (@nil jsstring))); reflexivity. Qed.

(** Picking in [bank[emotion] || bank.neutral] is picking among its
    elements. *)
Lemma pickFrom_phrases (bank : PhraseBank) (emotion : jsstring) (r : JS.draw) :
  pickFrom (orNeutral bank emotion) r = pick (phrases bank emotion) r.
Proof.
  unfold phrases. destruct (orNeutral bank emotion);
    [reflexivity | symmetry; apply pick_nil].
Qed.

(* ================================================================== *)
(** * The conversion to a string *)
(* ================================================================== *)

(** Induction on a JSON value, with the property on every element of
    an array and on every member of an object. *)
Lemma value_induction (P : JSON.value -> Prop) :
  P JSON.Null ->
  (forall b, P (JSON.Bool b)) ->
  (forall x, P (JSON.Number x)) ->
  (forall s, P (JSON.String s)) ->
  (forall l, Forall P l -> P (JSON.Array l)) ->
  (forall m, Forall (fun kv => P (snd kv)) m -> P (JSON.Object m)) ->
  forall v, P v.
Proof.
  intros HN HB HX HS HA HO.
  fix IH 1. intros [| b | x | s | l | m].
  - exact HN.
  - apply HB.
  - apply HX.
  - apply HS.
  - apply HA. induction l as [| v l IHl]; constructor; [apply IH | exact IHl].
  - apply HO. induction m as [| [k v] m IHm]; constructor; [apply IH | exact IHm].
Qed.

(** A join throws as soon as one element does. *)
Lemma joinElements_convertible (l : list JSON.value) :
  Forall (fun v => if convertible v
                   then exists s, JS.toString v = Normal s
                   else JS.toString v = Throw TypeError) l ->
  if forallb convertible l
  then exists s, JS.joinElements JS.toString l = Normal s
  else JS.joinElements JS.toString l = Throw TypeError.
Proof.
  induction 1 as [| v l Hv Hl IH]; simpl; [eauto |].
  destruct (convertible v) eqn:Ev; simpl.
  - destruct Hv as [sv Hv].
    assert (exists sx, match v with
                       | JSON.Null => Normal []
                       | _ => JS.toString v
                       end = Normal sx) as [sx ->]
      by (destruct v; eauto).
    destruct l as [| w l']; [simpl; eauto |].
    destruct (forallb convertible (w :: l')).
    + destruct IH as [r ->]. eauto.
    + rewrite IH. reflexivity.
  - assert (match v with
            | JSON.Null => Normal []
            | _ => JS.toString v
            end = Throw TypeError) as ->
      by (destruct v; try discriminate; exact Hv).
    reflexivity.
Qed.

(** [String(v)], with its recursion followed to the end, returns on
    the convertible values and throws a [TypeError] on the others. *)
Lemma toString_convertible (v : JSON.value) :
  if convertible v
  then exists s, JS.toString v = Normal s
  else JS.toString v = Throw TypeError.
Proof.
  induction v as [| b | x | s | l IH | m _] using value_induction;
    try (simpl; eauto; fail).
  - destruct b; simpl; eauto.
  - change (convertible (JSON.Array l)) with (forallb convertible l).
    change (JS.toString (JSON.Array l)) with (JS.joinElements JS.toString l).
    apply joinElements_convertible. exact IH.
  - simpl. destruct (JSON.lookup (js "toString") m); eauto.
Qed.

(* ================================================================== *)
(** * Words *)
(* ================================================================== *)

(** [split] runs through a stretch without white space. *)
Lemma splitFrom_stretch (w rest cur : jsstring) (sep : bool) :
  forallb (fun c => negb (JSString.isWhiteSpace c)) w = true ->
  JSString.splitFrom (w ++ rest) cur sep
  = JSString.splitFrom rest (rev w ++ cur)
      (match w with [] => sep | _ :: _ => false end).
Proof.
  revert cur sep. induction w as [| c w IH]; intros cur sep Hw; [reflexivity |].
  simpl in Hw. apply andb_true_iff in Hw as [Hc Hw].
  apply negb_true_iff in Hc.
  simpl. rewrite Hc, (IH (c :: cur) false Hw), <- app_assoc. simpl.
  destruct w; reflexivity.
Qed.

Lemma isWord_cons (w : jsstring) :
  isWord w = true ->
  forallb (fun c => negb (JSString.isWhiteSpace c)) w = true
  /\ exists c w', w = c :: w' /\ JSString.isWhiteSpace c = false.
Proof.
  unfold isWord. intros H. apply andb_true_iff in H as [Hn Hw].
  split; [exact Hw |].
  destruct w as [| c w']; [discriminate |].
  simpl in Hw. apply andb_true_iff in Hw as [Hc _].
  apply negb_true_iff in Hc. eauto.
Qed.

(** Words joined by single spaces are split into these words. *)
Lemma splitFrom_join (ws : list jsstring) (sep : bool) :
  ws <> [] ->
  forallb isWord ws = true ->
  JSString.splitFrom (JSString.join (js " ") ws) [] sep = ws.
Proof.
  revert sep. induction ws as [| w ws IH]; intros sep Hne Hws; [congruence |].
  simpl in Hws. apply andb_true_iff in Hws as [Hw Hws].
  destruct (isWord_cons w Hw) as [Hnw [c [w' [Ew Hc]]]].
  destruct ws as [| w2 ws].
  - simpl. rewrite <- (app_nil_r w) at 1.
    rewrite (splitFrom_stretch w [] [] sep Hnw). simpl.
    now rewrite app_nil_r, rev_involutive.
  - change (JSString.join (js " ") (w :: w2 :: ws))
      with (w ++ js " " ++ JSString.join (js " ") (w2 :: ws)).
    rewrite (splitFrom_stretch w _ [] sep Hnw).
    rewrite Ew at 2. change (js " ") with [0x20%N].
    cbn [app JSString.splitFrom].
    change (JSString.isWhiteSpace 0x20%N) with true. cbv iota.
    rewrite app_nil_r, rev_involutive.
    apply (f_equal (cons w)). apply (IH true); [discriminate | exact Hws].
Qed.

Lemma trimStart_cons (c : N) (s : jsstring) :
  JSString.isWhiteSpace c = false -> JSString.trimStart (c :: s) = c :: s.
Proof. intros H. simpl. now rewrite H. Qed.

(** Joined words end with a code unit that is no white space. *)
Lemma join_last (ws : list jsstring) :
  ws <> [] ->
  forallb isWord ws = true ->
  exists c s, rev (JSString.join (js " ") ws) = c :: s
              /\ JSString.isWhiteSpace c = false.
Proof.
  induction ws as [| w ws IH]; intros Hne Hws; [congruence |].
  simpl in Hws. apply andb_true_iff in Hws as [Hw Hws].
  destruct ws as [| w2 ws].
  - simpl. destruct (isWord_cons w Hw) as [Hnw [c [w' [Ew _]]]].
    assert (rev w <> []) as Hr.
    { rewrite Ew. simpl. intros E. apply app_eq_nil in E as [_ E]. discriminate. }
    destruct (rev w) as [| d r] eqn:Er; [congruence |].
    exists d, r. split; [reflexivity |].
    assert (In d w) as Hin by (apply in_rev; rewrite Er; left; reflexivity).
    rewrite forallb_forall in Hnw. specialize (Hnw d Hin).
    now apply negb_true_iff in Hnw.
  - destruct IH as [c [s [E Hc]]]; [discriminate | exact Hws |].
    change (JSString.join (js " ") (w :: w2 :: ws))
      with (w ++ js " " ++ JSString.join (js " ") (w2 :: ws)).
    rewrite !rev_app_distr, E. simpl. eauto.
Qed.

(** Joined words have no white space to trim. *)
Lemma trim_join (ws : list jsstring) :
  ws <> [] ->
  forallb isWord ws = true ->
  JSString.trim (JSString.join (js " ") ws) = JSString.join (js " ") ws.
Proof.
  intros Hne Hws. unfold JSString.trim, JSString.trimEnd.
  assert (JSString.trimStart (JSString.join (js " ") ws) = JSString.join (js " ") ws)
    as ->.
  { destruct ws as [| w ws]; [congruence |].
    simpl in Hws. apply andb_true_iff in Hws as [Hw _].
    destruct (isWord_cons w Hw) as [_ [c [w' [-> Hc]]]].
    destruct ws; simpl; now rewrite Hc. }
  destruct (join_last ws Hne Hws) as [c [s [E Hc]]].
  rewrite E, (trimStart_cons c s Hc), <- E. apply rev_involutive.
Qed.

(** The words of a text made of words and single spaces. *)
Lemma wordsOf_join (ws : list jsstring) :
  ws <> [] ->
  forallb isWord ws = true ->
  wordsOf (JSString.join (js " ") ws) = ws.
Proof.
  intros Hne Hws. unfold wordsOf, JSString.splitWhiteSpace.
  rewrite (trim_join ws Hne Hws). apply splitFrom_join; assumption.
Qed.

(* ================================================================== *)
(** * The fuel of the parser *)
(* ================================================================== *)

Lemma skipSpace_length (s : jsstring) :
  (List.length (JSON.skipSpace s) <= List.length s)%nat.
Proof.
  induction s as [| c s IH]; simpl; [lia |].
  destruct (JSON.isSpace c); simpl; lia.
Qed.

Lemma skipSpace_cons (s : jsstring) (c : N) (r : jsstring) :
  JSON.skipSpace s = c :: r -> (List.length r < List.length s)%nat.
Proof.
  intros H. pose proof (skipSpace_length s) as L. rewrite H in L. simpl in L. lia.
Qed.

Lemma digits_length (s : jsstring) (acc count v n : N) (r : jsstring) :
  JSON.digits s acc count = (v, n, r) -> (List.length r <= List.length s)%nat.
Proof.
  revert acc count. induction s as [| c s IH]; intros acc count; simpl.
  - intros [= _ _ <-]. simpl. lia.
  - destruct (JSON.isDigit c).
    + intros H. apply IH in H. lia.
    + intros [= _ _ <-]. simpl. lia.
Qed.

Lemma chars_length (s acc str r : jsstring) :
  JSON.chars s acc = Some (str, r) -> (List.length r < List.length s)%nat.
Proof.
  enough (forall k s acc, (List.length s <= k)%nat ->
            JSON.chars s acc = Some (str, r) ->
            (List.length r < List.length s)%nat) as H
    by (apply (H (List.length s)); lia).
  clear s acc. induction k as [| k IH]; intros s acc Hk.
  - destruct s; [simpl; discriminate | simpl in Hk; lia].
  - destruct s as [| c s1]; [simpl; discriminate |].
    simpl in Hk. cbn [JSON.chars].
    assert (forall s' acc', (List.length s' <= List.length s1)%nat ->
              JSON.chars s' acc' = Some (str, r) ->
              (List.length r < List.length (c :: s1))%nat) as Hrec.
    { intros s' acc' Hl H. apply IH in H; simpl; lia. }
    destruct (c =? 0x22)%N; [intros [= _ <-]; simpl; lia |].
    destruct (c =? 0x5C)%N.
    + destruct s1 as [| e s2]; [discriminate |].
      repeat match goal with
             | |- (if ?b then _ else _) = _ -> _ =>
                 destruct b; [apply Hrec; simpl; lia |]
             end.
      destruct (e =? 0x75)%N; [| discriminate].
      destruct s2 as [| h1 [| h2 [| h3 [| h4 s3]]]]; try discriminate.
      destruct (JSON.hexValue h1), (JSON.hexValue h2), (JSON.hexValue h3),
        (JSON.hexValue h4); try discriminate.
      apply Hrec. simpl. lia.
    + destruct (c <? 0x20)%N; [discriminate |].
      apply Hrec. lia.
Qed.


Lemma sign_length (s : jsstring) :
  (List.length (snd (JSON.sign s)) <= List.length s)%nat.
Proof.
  unfold JSON.sign. destruct s as [| c s']; [simpl; lia |].
  destruct (c =? 0x2D)%N; simpl; lia.
Qed.

Lemma integerPart_length (s : jsstring) (v : N) (r : jsstring) :
  JSON.integerPart s = Some (v, r) -> (List.length r < List.length s)%nat.
Proof.
  unfold JSON.integerPart. destruct s as [| c s1]; [discriminate |].
  destruct (JSON.isDigit c) eqn:Ed; [| discriminate].
  destruct (c =? 0x30)%N; [intros [= _ <-]; simpl; lia |].
  destruct (JSON.digits (c :: s1) 0 0) as [[v' n] r'] eqn:E.
  intros [= _ <-]. simpl in E. rewrite Ed in E.
  apply digits_length in E. simpl. lia.
Qed.

Lemma fractionPart_length (int : N) (s : jsstring) (v n : N) (r : jsstring) :
  JSON.fractionPart int s = Some (v, n, r) ->
  (List.length r <= List.length s)%nat.
Proof.
  unfold JSON.fractionPart. destruct s as [| c s']; [intros [= _ _ <-]; lia |].
  destruct (c =? 0x2E)%N; [| intros [= _ _ <-]; lia].
  destruct (JSON.digits s' int 0) as [[v' n'] r'] eqn:E.
  apply digits_length in E.
  destruct (n' =? 0)%N; [discriminate |].
  intros [= _ _ <-]. simpl. lia.
Qed.

Lemma exponentPart_length (s : jsstring) (e : Z) (r : jsstring) :
  JSON.exponentPart s = Some (e, r) -> (List.length r <= List.length s)%nat.
Proof.
  unfold JSON.exponentPart. destruct s as [| c s']; [intros [= _ <-]; lia |].
  destruct ((c =? 0x65) || (c =? 0x45))%N; [| intros [= _ <-]; lia].
  assert (exists neg s1,
            match s' with
            | [] => (false, s')
            | d :: r0 =>
                if (d =? 0x2D)%N then (true, r0)
                else if (d =? 0x2B)%N then (false, r0) else (false, s')
            end = (neg, s1)
            /\ (List.length s1 <= List.length s')%nat) as (neg & s1 & -> & H1).
  { destruct s' as [| d r0]; [eexists _, _; split; [reflexivity | lia] |].
    destruct (d =? 0x2D)%N; [eexists _, _; split; [reflexivity | simpl; lia] |].
    destruct (d =? 0x2B)%N; eexists _, _; split; try reflexivity; simpl; lia. }
  destruct (JSON.digits s1 0 0) as [[v n] r0] eqn:E.
  apply digits_length in E.
  destruct (n =? 0)%N; [discriminate |].
  intros [= _ <-]. simpl. lia.
Qed.

Lemma number_length (s : jsstring) (x : JSNumber.t) (r : jsstring) :
  JSON.number s = Some (x, r) -> (List.length r < List.length s)%nat.
Proof.
  unfold JSON.number. pose proof (sign_length s) as Hs.
  destruct (JSON.sign s) as [neg s0]. simpl in Hs.
  destruct (JSON.integerPart s0) as [[int s2] |] eqn:Ei; [| discriminate].
  apply integerPart_length in Ei.
  destruct (JSON.fractionPart int s2) as [[[mant nfrac] s3] |] eqn:Ef; [| discriminate].
  apply fractionPart_length in Ef.
  destruct (JSON.exponentPart s3) as [[e10 rest] |] eqn:Ee; [| discriminate].
  apply exponentPart_length in Ee.
  intros [= _ <-]. lia.
Qed.

(** Case analysis on the outermost test of the goal. *)
Ltac split_match :=
  match goal with
  | |- context [match ?x with _ => _ end] =>
      lazymatch x with
      | context [match _ with _ => _ end] => fail
      | _ => destruct x eqn:?
      end
  end.

(** What is left of the text after a token or a keyword is shorter. *)
Ltac shorter :=
  repeat match goal with
         | H : JSON.skipSpace _ = _ :: _ |- _ => apply skipSpace_cons in H
         | H : JSON.chars _ _ = Some _ |- _ => apply chars_length in H
         | H : JSON.number _ = Some _ |- _ => apply number_length in H
         | H : Some (_, ?x) = Some (_, ?r) |- _ =>
             assert (r = x) by congruence; clear H; subst r
         end;
  rewrite ?length_skipn; simpl in *; lia.

(** Every value, and so every array and every object, takes one code
    unit of the text at least. *)
Lemma parse_length (f : nat) :
  (forall s v r, JSON.element f s = Some (v, r) ->
                 (List.length r < List.length s)%nat)
  /\ (forall s acc v r, JSON.elements f s acc = Some (v, r) ->
                        (List.length r < List.length s)%nat)
  /\ (forall s acc v r, JSON.members f s acc = Some (v, r) ->
                        (List.length r < List.length s)%nat).
Proof.
  induction f as [| f (IHe & IHl & IHm)]; [repeat split; discriminate |].
  split; [| split].
  - intros s v r. cbn [JSON.element].
    repeat split_match; try discriminate; intros H;
      try (apply IHl in H); try (apply IHm in H); shorter.
  - intros s acc v r. cbn [JSON.elements].
    destruct (JSON.element f s) as [[v' r'] |] eqn:E; [| discriminate].
    apply IHe in E.
    repeat split_match; try discriminate; intros H;
      try (apply IHl in H); shorter.
  - intros s acc v r. cbn [JSON.members].
    destruct (JSON.skipSpace s) as [| q s1] eqn:E1; [discriminate |].
    destruct (q =? 0x22)%N; [| discriminate].
    destruct (JSON.chars s1 []) as [[key r1] |] eqn:E2; [| discriminate].
    destruct (JSON.skipSpace r1) as [| colon r2] eqn:E3; [discriminate |].
    destruct (colon =? 0x3A)%N; [| discriminate].
    destruct (JSON.element f r2) as [[v' r3] |] eqn:E4; [| discriminate].
    apply IHe in E4.
    repeat split_match; try discriminate; intros H;
      try (apply IHm in H); shorter.
Qed.

Ltac shorter_parse :=
  repeat match goal with
         | H : JSON.element _ _ = Some _ |- _ =>
             apply (proj1 (parse_length _)) in H
         end;
  shorter.

(** Two amounts of fuel above twice the length of the text give the
    same result: no text fails for lack of fuel. *)
Lemma parse_stable (f : nat) :
  forall g : nat,
    (forall s, (2 * List.length s + 1 <= f)%nat -> (2 * List.length s + 1 <= g)%nat ->
               JSON.element f s = JSON.element g s)
    /\ (forall s acc,
          (2 * List.length s + 2 <= f)%nat -> (2 * List.length s + 2 <= g)%nat ->
          JSON.elements f s acc = JSON.elements g s acc)
    /\ (forall s acc,
          (2 * List.length s + 2 <= f)%nat -> (2 * List.length s + 2 <= g)%nat ->
          JSON.members f s acc = JSON.members g s acc).
Proof.
  induction f as [| f IH]; intros g.
  { repeat split; intros; lia. }
  destruct g as [| g]; [repeat split; intros; lia |].
  destruct (IH g) as (IHe & IHl & IHm). clear IH.
  split; [| split].
  - intros s Hf Hg. cbn [JSON.element].
    repeat split_match; try reflexivity; (apply IHl || apply IHm); shorter.
  - intros s acc Hf Hg. cbn [JSON.elements].
    rewrite (IHe s) by lia.
    repeat split_match; try reflexivity; apply IHl; shorter_parse.
  - intros s acc Hf Hg. cbn [JSON.members].
    repeat (first [rewrite IHe by shorter_parse | split_match]);
      try reflexivity; apply IHm; shorter_parse.
Qed.

(** [JSON.parse] gives its result with any larger amount of fuel. *)
Lemma parse_fuel (text : jsstring) (k : nat) :
  JSON.element (2 * List.length text + 2 + k) text
  = JSON.element (2 * List.length text + 2) text.
Proof. apply (proj1 (parse_stable _ _)); lia. Qed.

(* ================================================================== *)
(** * Lemmas on the handler *)
(* ================================================================== *)

(** The two draws of [generateReply]. *)
Lemma generateReply_run (userText emotion : jsstring) (src : nat -> JS.draw) (n : nat) :
  generateReply userText emotion src n
  = (Normal (JSString.join (js " ")
               (filterBoolean [pick (phrases VALIDATION emotion) (src n);
                               Some (reflection userText);
                               pick (phrases SUGGESTIONS emotion) (src (S n))])),
     S (S n)).
Proof. rewrite <- !pickFrom_phrases. reflexivity. Qed.

(** The [try] block by cases on the two conversions and on the text. *)
Lemma respond_run (data : JSON.value) (src : nat -> JS.draw) (n : nat) :
  respond data src n
  = match textOf data with
    | Throw e => (Throw e, n)
    | Normal text =>
        match sessionIdOf data with
        | Throw e => (Throw e, n)
        | Normal _ =>
            if JSString.eqb text [] then (Normal badRequest, n)
            else
              match generateReply text (detectEmotion text) src n with
              | (Normal reply, n') => (Normal (success (detectEmotion text) reply), n')
              | (Throw e, n') => (Throw e, n')
              end
        end
    end.
Proof.
  unfold respond, JS.bind, JS.lift, JS.ret.
  destruct (textOf data) as [text | e]; [| reflexivity].
  destruct (sessionIdOf data) as [sid | e]; [| reflexivity].
  destruct (JSString.eqb text []); reflexivity.
Qed.

(** The handler by cases on the parse. *)
Lemma handler_run (event : Event) (src : nat -> JS.draw) (n : nat) :
  handler event src n
  = match JSON.parse (bodyOrDefault event) with
    | Throw _ => (Normal serverError, n)
    | Normal data =>
        match respond data src n with
        | (Normal r, n') => (Normal r, n')
        | (Throw _, n') => (Normal serverError, n')
        end
    end.
Proof.
  unfold handler, JS.tryCatch, JS.bind, JS.lift, JS.ret.
  destruct (JSON.parse (bodyOrDefault event)) as [data | e]; [| reflexivity].
  destruct (respond data src n) as [[r | e] n']; reflexivity.
Qed.

(** The handler's promise is never rejected: every exception of the
    [try] block is caught. *)
Lemma handler_normal (event : Event) (src : nat -> JS.draw) (n : nat) :
  exists r n', handler event src n = (Normal r, n').
Proof.
  rewrite handler_run.
  destruct (JSON.parse (bodyOrDefault event)) as [data | e]; [| eauto].
  destruct (respond data src n) as [[r | e] n']; eauto.
Qed.

(** An absent body and an empty body are read as [{}]. *)
Lemma bodyOrDefault_empty (event : Event) :
  body event = None \/ body event = Some [] -> bodyOrDefault event = js "{}".
Proof. unfold bodyOrDefault. intros [-> | ->]; reflexivity. Qed.

Lemma bodyOrDefault_nonempty (event : Event) (b : jsstring) :
  body event = Some b -> b <> [] -> bodyOrDefault event = b.
Proof.
  unfold bodyOrDefault. intros -> Hb. destruct b; [congruence | reflexivity].
Qed.

Lemma serverError_eq :
  serverError
  = {| statusCode := 500;
       headers := None;
       responseBody := object [member "error" (quoted "Server error.")] |}.
Proof. vm_compute. reflexivity. Qed.

Lemma badRequest_eq :
  badRequest
  = {| statusCode := 400;
       headers := None;
       responseBody := object [member "error" (quoted "No text provided.")] |}.
Proof. vm_compute. reflexivity. Qed.

(** A request whose text is empty after trimming, and whose
    [session_id] is converted without an exception, is answered with
    the 400 response before any draw is read. *)
Lemma respond_empty (data : JSON.value) (sid : jsstring) (src : nat -> JS.draw) (n : nat) :
  textOf data = Normal [] ->
  sessionIdOf data = Normal sid ->
  respond data src n = (Normal badRequest, n).
Proof. intros Ht Hs. rewrite respond_run, Ht, Hs. reflexivity. Qed.

(** A request with a text and a [session_id] converted without an
    exception is answered with the 200 response, after two draws. *)
Lemma respond_text (data : JSON.value) (text sid : jsstring) (src : nat -> JS.draw) (n : nat) :
  textOf data = Normal text ->
  text <> [] ->
  sessionIdOf data = Normal sid ->
  exists reply,
    generateReply text (detectEmotion text) src n = (Normal reply, S (S n))
    /\ respond data src n = (Normal (success (detectEmotion text) reply), S (S n)).
Proof.
  intros Ht Hne Hs. rewrite respond_run, Ht, Hs.
  destruct (JSString.eqb text []) eqn:E; [apply eqb_nil in E; congruence |].
  rewrite generateReply_run. eexists. split; reflexivity.
Qed.

Lemma detectEmotion_label (t : jsstring) : In (detectEmotion t) EmotionLabels.
Proof.
  unfold detectEmotion, EmotionLabels.
  repeat match goal with
         | |- context [if ?c then _ else _] => destruct c
         end; simpl; auto 10.
Qed.

(** An absent body and an empty body are answered with the 400
    response. *)
Lemma empty_body_bad_request (event : Event) (src : nat -> JS.draw) (n : nat) :
  body event = None \/ body event = Some [] ->
  handler event src n = (Normal badRequest, n).
Proof.
  intros Hb. rewrite handler_run, (bodyOrDefault_empty event Hb).
  reflexivity.
Qed.

(** The handler returns status 500 in three cases and in no other:
    [JSON.parse] throws, the reading and conversion of [text] throws, or
    the conversion of [session_id] throws. *)
Lemma server_error_iff (event : Event) (src : nat -> JS.draw) (n : nat) :
  exists r n',
    handler event src n = (Normal r, n')
    /\ (statusCode r = 500%N
        <-> ((exists e, JSON.parse (bodyOrDefault event) = Throw e)
             \/ exists data,
                  JSON.parse (bodyOrDefault event) = Normal data
                  /\ ((exists e, textOf data = Throw e)
                      \/ exists e, sessionIdOf data = Throw e))).
Proof.
  rewrite handler_run.
  destruct (JSON.parse (bodyOrDefault event)) as [data | e] eqn:Ep.
  - rewrite respond_run.
    destruct (textOf data) as [text | e] eqn:Et.
    + destruct (sessionIdOf data) as [sid | e] eqn:Es.
      * assert (~ ((exists e, @Normal JSON.value data = Throw e)
                   \/ exists data0,
                        Normal data = Normal data0
                        /\ ((exists e, textOf data0 = Throw e)
                            \/ exists e, sessionIdOf data0 = Throw e))) as Hno.
        { intros [[e He] | [d [[= <-] [[e He] | [e He]]]]]; congruence. }
        destruct (JSString.eqb text []).
        -- exists badRequest, n. split; [reflexivity |].
           split; [discriminate | intros H; destruct (Hno H)].
        -- rewrite generateReply_run. eexists _, _. split; [reflexivity |].
           split; [discriminate | intros H; destruct (Hno H)].
      * exists serverError, n. split; [reflexivity |].
        split; [| reflexivity]. intros _. right. exists data. eauto.
    + exists serverError, n. split; [reflexivity |].
      split; [| reflexivity]. intros _. right. exists data. eauto.
  - exists serverError, n. split; [reflexivity |].
    split; [| reflexivity]. intros _. left. eauto.
Qed.

(** The members of an object but [session_id]. *)
Lemma lookup_filter (key other : jsstring) (m : list (jsstring * JSON.value)) :
  JSString.eqb other key = false ->
  JSON.lookup key (filter (fun kv => negb (JSString.eqb (fst kv) other)) m)
  = JSON.lookup key m.
Proof.
  intros Hk. induction m as [| [k v] m IH]; [reflexivity |].
  simpl. destruct (JSString.eqb k other) eqn:E; simpl.
  - rewrite IH. destruct (JSON.lookup key m); [reflexivity |].
    apply eqb_eq in E. subst k. now rewrite Hk.
  - now rewrite IH.
Qed.

(** Two objects with the same members but [session_id] have the same
    [text]. *)
Lemma same_text (m1 m2 : list (jsstring * JSON.value)) :
  withoutSessionId m1 = withoutSessionId m2 ->
  JS.get (JSON.Object m1) (js "text") = JS.get (JSON.Object m2) (js "text").
Proof.
  unfold withoutSessionId. intros H. simpl.
  rewrite <- (lookup_filter (js "text") (js "session_id") m1) by reflexivity.
  rewrite <- (lookup_filter (js "text") (js "session_id") m2) by reflexivity.
  now rewrite H.
Qed.

(* ================================================================== *)
(** * C1: malformed bodies *)
(* ================================================================== *)

(** C1, at the body [not json]: the text is not valid JSON, and the
    handler answers it with status 500, which is not its answer to an
    empty body, status 400. *)
Lemma malformed_body_counterexample :
  JSON.parse (js "not json") = Throw SyntaxError
  /\ handler (request (js "not json")) draws 0
     = (Normal {| statusCode := 500;
                  headers := None;
                  responseBody := object [member "error" (quoted "Server error.")] |},
        0%nat)
  /\ handler (request []) draws 0
     = (Normal {| statusCode := 400;
                  headers := None;
                  responseBody := object [member "error" (quoted "No text provided.")] |},
        0%nat)
  /\ handler (request (js "not json")) draws 0 <> handler (request []) draws 0.
Proof.
  split; [vm_compute; reflexivity |].
  split; [vm_compute; reflexivity |].
  split; [vm_compute; reflexivity |].
  vm_compute. discriminate.
Qed.

(** C1, amended: for every request whose body is a non-empty string
    that is not valid JSON, the exception of [JSON.parse] is caught and
    the handler returns status 500 with the body
    [{"error":"Server error."}], without headers; this is not its answer
    to an empty or absent body. *)
Theorem malformed_body_server_error
  (event : Event) (b : jsstring) (e : exception) (src : nat -> JS.draw) (n : nat) :
  body event = Some b ->
  b <> [] ->
  JSON.parse b = Throw e ->
  handler event src n
  = (Normal {| statusCode := 500;
               headers := None;
               responseBody := object [member "error" (quoted "Server error.")] |},
     n)
  /\ handler event src n <> handler {| body := Some [] |} src n
  /\ handler event src n <> handler {| body := None |} src n.
Proof.
  intros Hb Hne Hp.
  assert (handler event src n = (Normal serverError, n)) as H.
  { now rewrite handler_run, (bodyOrDefault_nonempty event b Hb Hne), Hp. }
  rewrite H. split; [now rewrite serverError_eq |].
  split; rewrite empty_body_bad_request by auto; discriminate.
Qed.

Lemma malformed_body_witness :
  body (request (js "{oops")) = Some (js "{oops")
  /\ js "{oops" <> []
  /\ JSON.parse (js "{oops") = Throw SyntaxError
  /\ handler (request (js "{oops")) draws 7
     = (Normal {| statusCode := 500;
                  headers := None;
                  responseBody := object [member "error" (quoted "Server error.")] |},
        7%nat)
  /\ handler (request (js "{oops")) draws 7 <> handler {| body := Some [] |} draws 7
  /\ handler (request (js "{oops")) draws 7 <> handler {| body := None |} draws 7.
Proof.
  assert (H1 : body (request (js "{oops")) = Some (js "{oops")) by reflexivity.
  assert (H2 : js "{oops" <> []) by (vm_compute; discriminate).
  assert (H3 : JSON.parse (js "{oops") = Throw SyntaxError) by (vm_compute; reflexivity).
  split; [exact H1 |]. split; [exact H2 |]. split; [exact H3 |].
  exact (malformed_body_server_error (request (js "{oops")) (js "{oops")
           SyntaxError draws 7 H1 H2 H3).
Defined.

(* ================================================================== *)
(** * C2: the classifier *)
(* ================================================================== *)

(** C2: [detectEmotion] is the classifier of the specification:
    lower-case the input, test the keyword sets sad, happy, angry,
    anxious, love, surprised in this order by containment, return the
    label of the first set that matches and [neutral] if none does.  It
    is a function of the text alone and reads no draw, so the same text
    has the same label on every call; the seven test vectors hold. *)
Theorem detectEmotion_classify :
  (forall t : jsstring, detectEmotion t = classify t)
  /\ detectEmotion (js "I am so sad today") = js "sad"
  /\ detectEmotion (js "this is great news") = js "happy"
  /\ detectEmotion (js "I am furious") = js "angry"
  /\ detectEmotion (js "I feel nervous") = js "anxious"
  /\ detectEmotion (js "I love you") = js "love"
  /\ detectEmotion (js "I was shocked") = js "surprised"
  /\ detectEmotion (js "the sky is blue") = js "neutral".
Proof.
  split.
  - intros t. unfold detectEmotion, classify, someIncluded. reflexivity.
  - repeat split; vm_compute; reflexivity.
Qed.

(* ================================================================== *)
(** * C3: requests without a text *)
(* ================================================================== *)


(** A text that is missing, empty or made of white space only is
    extracted as the empty string. *)
Lemma textOf_blank (data : JSON.value) :
  (JS.get data (js "text") = Normal None
   \/ exists s, JS.get data (js "text") = Normal (Some (JSON.String s))
                /\ JSString.trim s = []) ->
  textOf data = Normal [].
Proof.
  unfold textOf. intros [-> | [s [-> Htrim]]].
  - reflexivity.
  - unfold JS.orElse, JS.toBoolean.
    destruct (negb (JSString.eqb s [])) eqn:E; simpl.
    + now rewrite Htrim.
    + reflexivity.
Qed.



(* ================================================================== *)
(** * C4: requests with a text *)
(* ================================================================== *)

(** C4, at the body [{"text":"hi","session_id":{"toString":1}}]: the
    trimmed text is [hi], the conversion of [session_id] throws, and the
    handler returns status 500. *)
Lemma nonempty_text_counterexample :
  exists data,
    JSON.parse bodyHiSession = Normal data
    /\ textOf data = Normal (js "hi")
    /\ sessionIdOf data = Throw TypeError
    /\ handler (request bodyHiSession) draws 0
       = (Normal {| statusCode := 500;
                    headers := None;
                    responseBody := object [member "error" (quoted "Server error.")] |},
          0%nat).
Proof.
  eexists. split; [vm_compute; reflexivity |].
  split; [vm_compute; reflexivity |].
  split; vm_compute; reflexivity.
Qed.

(** C4, amended: for every request whose trimmed text is a non-empty
    string, and whose [session_id] is absent or converted to a string
    without an exception, the handler returns status 200 with the
    header [Content-Type: application/json] and the body
    [{emotion, scores, reply, history}], where [emotion] is the label
    that [detectEmotion] gives the text, one of the seven labels,
    [scores] is the empty object, [reply] is the result of
    [generateReply], and [history] is the empty array. *)
Theorem nonempty_text_success
  (event : Event) (data : JSON.value) (text sid : jsstring)
  (src : nat -> JS.draw) (n : nat) :
  JSON.parse (bodyOrDefault event) = Normal data ->
  textOf data = Normal text ->
  text <> [] ->
  sessionIdOf data = Normal sid ->
  exists emotion reply,
    emotion = detectEmotion text
    /\ In emotion EmotionLabels
    /\ generateReply text emotion src n = (Normal reply, S (S n))
    /\ handler event src n
       = (Normal {| statusCode := 200;
                    headers := Some [(js "Content-Type", js "application/json")];
                    responseBody :=
                      JSON.stringify
                        (JSON.Object [(js "emotion", JSON.String emotion);
                                      (js "scores", JSON.Object []);
                                      (js "reply", JSON.String reply);
                                      (js "history", JSON.Array [])]) |},
          S (S n))
    /\ JSON.stringify
         (JSON.Object [(js "emotion", JSON.String emotion);
                       (js "scores", JSON.Object []);
                       (js "reply", JSON.String reply);
                       (js "history", JSON.Array [])])
       = object [member "emotion" (JSON.quote emotion);
                 member "scores" (js "{}");
                 member "reply" (JSON.quote reply);
                 member "history" (js "[]")].
Proof.
  intros Hp Ht Hne Hs.
  destruct (respond_text data text sid src n Ht Hne Hs) as [reply [Hg Hr]].
  exists (detectEmotion text), reply.
  split; [reflexivity |].
  split; [apply detectEmotion_label |].
  split; [exact Hg |].
  split; [| reflexivity].
  rewrite handler_run, Hp, Hr. reflexivity.
Qed.

Lemma nonempty_text_witness :
  JSON.parse (bodyOrDefault (request bodySad))
  = Normal (JSON.Object [(js "text", JSON.String (js " I am so sad today "))])
  /\ textOf (JSON.Object [(js "text", JSON.String (js " I am so sad today "))])
     = Normal (js "I am so sad today")
  /\ js "I am so sad today" <> []
  /\ sessionIdOf (JSON.Object [(js "text", JSON.String (js " I am so sad today "))])
     = Normal (js "default_session")
  /\ exists emotion reply,
       emotion = detectEmotion (js "I am so sad today")
       /\ In emotion EmotionLabels
       /\ generateReply (js "I am so sad today") emotion draws 0
          = (Normal reply, 2%nat)
       /\ handler (request bodySad) draws 0
          = (Normal {| statusCode := 200;
                       headers := Some [(js "Content-Type", js "application/json")];
                       responseBody :=
                         JSON.stringify
                           (JSON.Object [(js "emotion", JSON.String emotion);
                                         (js "scores", JSON.Object []);
                                         (js "reply", JSON.String reply);
                                         (js "history", JSON.Array [])]) |},
             2%nat)
       /\ JSON.stringify
            (JSON.Object [(js "emotion", JSON.String emotion);
                          (js "scores", JSON.Object []);
                          (js "reply", JSON.String reply);
                          (js "history", JSON.Array [])])
          = object [member "emotion" (JSON.quote emotion);
                    member "scores" (js "{}");
                    member "reply" (JSON.quote reply);
                    member "history" (js "[]")].
Proof.
  assert (H1 : JSON.parse (bodyOrDefault (request bodySad))
               = Normal (JSON.Object [(js "text", JSON.String (js " I am so sad today "))]))
    by (vm_compute; reflexivity).
  assert (H2 : textOf (JSON.Object [(js "text", JSON.String (js " I am so sad today "))])
               = Normal (js "I am so sad today"))
    by (vm_compute; reflexivity).
  assert (H3 : js "I am so sad today" <> []) by (vm_compute; discriminate).
  assert (H4 : sessionIdOf (JSON.Object [(js "text", JSON.String (js " I am so sad today "))])
               = Normal (js "default_session"))
    by (vm_compute; reflexivity).
  split; [exact H1 |]. split; [exact H2 |]. split; [exact H3 |]. split; [exact H4 |].
  exact (nonempty_text_success (request bodySad) _ (js "I am so sad today")
           (js "default_session") draws 0 H1 H2 H3 H4).
Defined.

(** The whole response to [{"text":" I am so sad today "}] under the
    draws 1/2 and 1/3: the second validation phrase and the first
    suggestion. *)
Example handler_example :
  handler (request bodySad) draws 0
  = (Normal {| statusCode := 200;
               headers := Some [(js "Content-Type", js "application/json")];
               responseBody :=
                 object
                   [member "emotion" (quoted "sad");
                    member "scores" (js "{}");
                    member "reply"
                      (dquote
                       ++ js "That must be so difficult—thank you for sharing. You said: \"
                       ++ dquote ++ js "I am so sad today\" ++ dquote
                       ++ js " Would you like a quick breathing exercise?" ++ dquote);
                    member "history" (js "[]")] |},
     2%nat).
Proof. vm_compute. reflexivity. Qed.

(* ================================================================== *)
(** * C5: the reflection clause *)
(* ================================================================== *)

(** The clause of a text with more than 12 words. *)
Lemma reflection_long (userText : jsstring) :
  (12 < List.length (wordsOf userText))%nat ->
  reflection userText
  = js "You said: " ++ dquote
    ++ JSString.join (js " ") (firstn 12 (wordsOf userText))
    ++ js "..." ++ dquote.
Proof.
  intros H. unfold reflection.
  assert ((0 <? List.length (wordsOf userText))%nat = true) as ->
    by (apply Nat.ltb_lt; lia).
  assert ((12 <? List.length (wordsOf userText))%nat = true) as ->
    by (apply Nat.ltb_lt; lia).
  reflexivity.
Qed.

(** The clause of a text with 12 words or less. *)
Lemma reflection_short (userText : jsstring) :
  (1 <= List.length (wordsOf userText) <= 12)%nat ->
  reflection userText
  = js "You said: " ++ dquote ++ JSString.join (js " ") (wordsOf userText)
    ++ dquote.
Proof.
  intros H. unfold reflection.
  assert ((0 <? List.length (wordsOf userText))%nat = true) as ->
    by (apply Nat.ltb_lt; lia).
  assert ((12 <? List.length (wordsOf userText))%nat = false) as ->
    by (apply Nat.ltb_ge; lia).
  rewrite firstn_all2 by lia. reflexivity.
Qed.

(** C5: with the words of the trimmed input, split on runs of white
    space: more than 12 words give [You said: "w1 ... w12..."], the
    ellipsis before the closing quote; 1 to 12 words give
    [You said: "w1 ... wn"] without an ellipsis.  In particular an input
    of 15 words is reflected by its first 12 words and the ellipsis, and
    an input of 5 words by all its words. *)
Theorem reflection_truncation :
  (forall userText : jsstring,
     let words := JSString.splitWhiteSpace (JSString.trim userText) in
     ((12 < List.length words)%nat ->
      reflection userText
      = js "You said: " ++ dquote ++ JSString.join (js " ") (firstn 12 words)
        ++ js "..." ++ dquote)
     /\ ((1 <= List.length words <= 12)%nat ->
         reflection userText
         = js "You said: " ++ dquote ++ JSString.join (js " ") words ++ dquote))
  /\ (forall ws : list jsstring,
        forallb isWord ws = true ->
        List.length ws = 15%nat ->
        reflection (JSString.join (js " ") ws)
        = js "You said: " ++ dquote ++ JSString.join (js " ") (firstn 12 ws)
          ++ js "..." ++ dquote)
  /\ (forall ws : list jsstring,
        forallb isWord ws = true ->
        List.length ws = 5%nat ->
        reflection (JSString.join (js " ") ws)
        = js "You said: " ++ dquote ++ JSString.join (js " ") ws ++ dquote).
Proof.
  split; [| split].
  - intros userText words. subst words.
    change (JSString.splitWhiteSpace (JSString.trim userText))
      with (wordsOf userText).
    split; [apply reflection_long | apply reflection_short].
  - intros ws Hws Hl.
    assert (ws <> []) as Hne by (intros ->; discriminate).
    rewrite <- (wordsOf_join ws Hne Hws) at 2.
    apply reflection_long. rewrite (wordsOf_join ws Hne Hws), Hl. lia.
  - intros ws Hws Hl.
    assert (ws <> []) as Hne by (intros ->; discriminate).
    rewrite <- (wordsOf_join ws Hne Hws) at 2.
    apply reflection_short. rewrite (wordsOf_join ws Hne Hws), Hl. lia.
Qed.

Lemma reflection_truncation_witness :
  reflection (js "  a b c d e f g h i j k l m n o ")
  = js "You said: " ++ dquote ++ js "a b c d e f g h i j k l..." ++ dquote
  /\ reflection (js "I am so  sad today")
     = js "You said: " ++ dquote ++ js "I am so sad today" ++ dquote
  /\ reflection (js "one two three four five six seven eight nine ten eleven twelve thirteen fourteen fifteen")
     = js "You said: " ++ dquote
       ++ js "one two three four five six seven eight nine ten eleven twelve..."
       ++ dquote
  /\ reflection (js "the sky is so blue")
     = js "You said: " ++ dquote ++ js "the sky is so blue" ++ dquote.
Proof.
  split; [| split; [| split]].
  - refine (proj1 (proj1 reflection_truncation
                     (js "  a b c d e f g h i j k l m n o ")) _).
    vm_compute. lia.
  - refine (proj2 (proj1 reflection_truncation (js "I am so  sad today")) _).
    vm_compute. lia.
  - refine (proj1 (proj2 reflection_truncation)
              [js "one"; js "two"; js "three"; js "four"; js "five"; js "six";
               js "seven"; js "eight"; js "nine"; js "ten"; js "eleven";
               js "twelve"; js "thirteen"; js "fourteen"; js "fifteen"] _ _).
    + vm_compute. reflexivity.
    + reflexivity.
  - refine (proj2 (proj2 reflection_truncation)
              [js "the"; js "sky"; js "is"; js "so"; js "blue"] _ _).
    + vm_compute. reflexivity.
    + reflexivity.
Defined.

(* ================================================================== *)
(** * C6: the reply *)
(* ================================================================== *)

(** [filter(Boolean)] on strings omits the empty ones. *)
Lemma filterBoolean_Some (l : list jsstring) :
  filterBoolean (map Some l) = nonEmptyPieces l.
Proof.
  induction l as [| s l IH]; [reflexivity |].
  unfold filterBoolean, nonEmptyPieces in *. simpl.
  rewrite IH. destruct s; reflexivity.
Qed.

(** The reflection clause is never empty: [split] returns a piece,
    were it empty, so the clause starts with [You said: ]. *)
Lemma reflection_nonempty (userText : jsstring) :
  JSString.eqb (reflection userText) [] = false.
Proof.
  unfold reflection.
  assert ((0 <? List.length (wordsOf userText))%nat = true) as ->
    by (apply Nat.ltb_lt; apply wordsOf_length).
  reflexivity.
Qed.

(** Every label has its own list of two phrases in both banks, none
    empty. *)
Lemma phrases_label (emotion : jsstring) :
  In emotion EmotionLabels ->
  entry VALIDATION emotion = Some (phrases VALIDATION emotion)
  /\ entry SUGGESTIONS emotion = Some (phrases SUGGESTIONS emotion)
  /\ List.length (phrases VALIDATION emotion) = 2%nat
  /\ List.length (phrases SUGGESTIONS emotion) = 2%nat
  /\ forallb (fun p => negb (JSString.eqb p [])) (phrases VALIDATION emotion) = true
  /\ forallb (fun p => negb (JSString.eqb p [])) (phrases SUGGESTIONS emotion) = true.
Proof.
  unfold EmotionLabels. simpl.
  intros [<- | [<- | [<- | [<- | [<- | [<- | [<- | []]]]]]]];
    repeat split; vm_compute; reflexivity.
Qed.

(** The seven labels are no names of [Object.prototype]. *)
Lemma labels_own (emotion : jsstring) :
  In emotion EmotionLabels ->
  existsb (JSString.eqb emotion) prototypeNames = false.
Proof.
  unfold EmotionLabels. simpl.
  intros [<- | [<- | [<- | [<- | [<- | [<- | [<- | []]]]]]]];
    vm_compute; reflexivity.
Qed.

Ltac by_label emotion :=
  cbn [find fst snd];
  repeat match goal with
         | |- context [JSString.eqb emotion ?k] =>
             destruct (JSString.eqb emotion k); cbv beta iota
         end.

(** For a key that [Object.prototype] does not define, the code reads
    in a bank the list that the specification defines. *)
Lemma phrases_listFor (bank : PhraseBank) (emotion : jsstring) :
  existsb (JSString.eqb emotion) prototypeNames = false ->
  phrases bank emotion = listFor bank emotion.
Proof.
  intros H. unfold phrases, orNeutral, lookupKey, entry, listFor, entries.
  by_label emotion; try reflexivity.
  rewrite H. reflexivity.
Qed.

(** Every list of the two banks has two phrases, none empty. *)
Lemma listFor_two (emotion : jsstring) :
  List.length (listFor VALIDATION emotion) = 2%nat
  /\ List.length (listFor SUGGESTIONS emotion) = 2%nat
  /\ forallb (fun p => negb (JSString.eqb p [])) (listFor VALIDATION emotion) = true
  /\ forallb (fun p => negb (JSString.eqb p [])) (listFor SUGGESTIONS emotion) = true.
Proof.
  unfold listFor, entries.
  by_label emotion; repeat split; vm_compute; reflexivity.
Qed.

(** C6: for every text, the non-empty trimmed ones among them, and
    every label, [generateReply] reads two draws and returns the pieces
    [val], the reflection clause and [sug], the empty ones omitted,
    joined by single spaces.  [val] is an element of the validation
    list of the label and [sug] an element of its suggestion list, the
    elements that the two draws select, where the list of a label is
    the one the specification defines ([listFor]): the entry of the
    label in the table, and the neutral list of the table for a label
    without an entry.  The seven labels have their entries; the
    fallback holds for every other key but the names that
    [Object.prototype] defines, under which the code finds a property
    that is no list.  No piece is empty, so the reply is the three
    pieces with two spaces between them. *)
Theorem generateReply_composition
  (userText emotion : jsstring) (src : nat -> JS.draw) (n : nat) :
  In emotion EmotionLabels
  \/ existsb (JSString.eqb emotion) prototypeNames = false ->
  exists val sug,
    val = nth (indexOfTwo (src n)) (listFor VALIDATION emotion) []
    /\ sug = nth (indexOfTwo (src (S n))) (listFor SUGGESTIONS emotion) []
    /\ In val (listFor VALIDATION emotion)
    /\ In sug (listFor SUGGESTIONS emotion)
    /\ generateReply userText emotion src n
       = (Normal (JSString.join (js " ")
                    (nonEmptyPieces [val; reflection userText; sug])),
          S (S n))
    /\ nonEmptyPieces [val; reflection userText; sug]
       = [val; reflection userText; sug]
    /\ JSString.join (js " ") [val; reflection userText; sug]
       = val ++ js " " ++ reflection userText ++ js " " ++ sug.
Proof.
  intros H.
  assert (Hp : existsb (JSString.eqb emotion) prototypeNames = false)
    by (destruct H as [H | H]; [exact (labels_own emotion H) | exact H]).
  destruct (listFor_two emotion) as (Lv & Ls & Nv & Ns).
  set (val := nth (indexOfTwo (src n)) (listFor VALIDATION emotion) []).
  set (sug := nth (indexOfTwo (src (S n))) (listFor SUGGESTIONS emotion) []).
  assert (Hiv : In val (listFor VALIDATION emotion)).
  { apply nth_In. rewrite Lv. unfold indexOfTwo. destruct (belowHalf _); lia. }
  assert (His : In sug (listFor SUGGESTIONS emotion)).
  { apply nth_In. rewrite Ls. unfold indexOfTwo. destruct (belowHalf _); lia. }
  assert (Hne : nonEmptyPieces [val; reflection userText; sug]
                = [val; reflection userText; sug]).
  { rewrite forallb_forall in Nv, Ns.
    unfold nonEmptyPieces. simpl filter.
    rewrite (Nv val Hiv), (Ns sug His), reflection_nonempty. reflexivity. }
  exists val, sug.
  split; [reflexivity |]. split; [reflexivity |].
  split; [exact Hiv |]. split; [exact His |].
  split; [| split; [exact Hne | reflexivity]].
  rewrite generateReply_run, !(phrases_listFor _ _ Hp).
  rewrite (pick_two _ (src n) Lv), (pick_two _ (src (S n)) Ls).
  fold val sug.
  change [Some val; Some (reflection userText); Some sug]
    with (map Some [val; reflection userText; sug]).
  now rewrite filterBoolean_Some.
Qed.

Lemma generateReply_composition_witness :
  (In (js "happy") EmotionLabels
   /\ listFor VALIDATION (js "happy")
      = [js "That's wonderful to hear!"; js "I'm glad you're feeling good."]
   /\ listFor SUGGESTIONS (js "happy")
      = [js "Want to save this as a happy memory?";
         js "Want to celebrate with a compliment?"]
   /\ generateReply (js "this is great news") (js "happy") draws 0
      = (Normal (js "I'm glad you're feeling good." ++ js " "
                 ++ reflection (js "this is great news") ++ js " "
                 ++ js "Want to save this as a happy memory?"),
         2%nat))
  /\ (existsb (JSString.eqb (js "bored")) prototypeNames = false
      /\ listFor VALIDATION (js "bored")
         = [js "I'm here and listening."; js "Thanks for sharing."]
      /\ listFor SUGGESTIONS (js "bored") = neutral SUGGESTIONS
      /\ generateReply (js "so so") (js "bored") draws 0
         = (Normal (js "Thanks for sharing." ++ js " "
                    ++ reflection (js "so so") ++ js " "
                    ++ nth 0 (neutral SUGGESTIONS) []),
            2%nat)).
Proof.
  assert (H1 : In (js "happy") EmotionLabels) by (right; left; reflexivity).
  assert (H2 : existsb (JSString.eqb (js "bored")) prototypeNames = false)
    by (vm_compute; reflexivity).
  split.
  - split; [exact H1 |].
    split; [vm_compute; reflexivity |]. split; [vm_compute; reflexivity |].
    destruct (generateReply_composition (js "this is great news") (js "happy")
                draws 0 (or_introl H1))
      as (val & sug & Hval & Hsug & _ & _ & Heq & Hne & Hj).
    rewrite Heq, Hne, Hj, Hval, Hsug. vm_compute. reflexivity.
  - split; [exact H2 |].
    split; [vm_compute; reflexivity |]. split; [vm_compute; reflexivity |].
    destruct (generateReply_composition (js "so so") (js "bored")
                draws 0 (or_intror H2))
      as (val & sug & Hval & Hsug & _ & _ & Heq & Hne & Hj).
    rewrite Heq, Hne, Hj, Hval, Hsug. vm_compute. reflexivity.
Defined.

(** The reply to [this is great news] under the draws 1/2 and 1/3: the
    second validation phrase and the first suggestion. *)
Example generateReply_example :
  generateReply (js "this is great news") (js "happy") draws 0
  = (Normal (js "I'm glad you're feeling good. You said: " ++ dquote
             ++ js "this is great news" ++ dquote
             ++ js " Want to save this as a happy memory?"),
     2%nat).
Proof. vm_compute. reflexivity. Qed.

(* ================================================================== *)
(** * C7: the priority of the sad set *)
(* ================================================================== *)

(** A keyword of the first set that occurs in the lower-cased text
    decides for [sad]. *)
Lemma detectEmotion_sad (t w : jsstring) :
  In w sadWords ->
  JSString.includes (JSString.toLowerCase t) w = true ->
  detectEmotion t = js "sad".
Proof.
  intros Hw Hi. unfold detectEmotion.
  assert (someIncluded sadWords (JSString.toLowerCase t) = true) as H.
  { unfold someIncluded. apply existsb_exists. exists w. split; assumption. }
  unfold sadWords in H. rewrite H. reflexivity.
Qed.

Lemma sadWords_lower (w : jsstring) : In w sadWords -> JSString.toLowerCase w = w.
Proof.
  unfold sadWords. simpl.
  intros [<- | [<- | [<- | [<- | [<- | []]]]]]; vm_compute; reflexivity.
Qed.

(** C7: every text that contains, case ignored, a keyword of the sad
    set and a keyword of the happy set is classified as [sad]; so is
    [I am sad but glad]. *)
Theorem sad_before_happy (text ws wh : jsstring) :
  In ws sadWords ->
  In wh happyWords ->
  containsIgnoringCase text ws = true ->
  containsIgnoringCase text wh = true ->
  detectEmotion text = js "sad".
Proof.
  intros Hs _ Hcs _. unfold containsIgnoringCase in Hcs.
  rewrite (sadWords_lower ws Hs) in Hcs.
  exact (detectEmotion_sad text ws Hs Hcs).
Qed.

Lemma sad_before_happy_witness :
  In (js "sad") sadWords
  /\ In (js "glad") happyWords
  /\ containsIgnoringCase (js "I am sad but glad") (js "sad") = true
  /\ containsIgnoringCase (js "I am sad but glad") (js "glad") = true
  /\ detectEmotion (js "I am sad but glad") = js "sad".
Proof.
  assert (H1 : In (js "sad") sadWords) by (left; reflexivity).
  assert (H2 : In (js "glad") happyWords) by (right; left; reflexivity).
  assert (H3 : containsIgnoringCase (js "I am sad but glad") (js "sad") = true)
    by (vm_compute; reflexivity).
  assert (H4 : containsIgnoringCase (js "I am sad but glad") (js "glad") = true)
    by (vm_compute; reflexivity).
  split; [exact H1 |]. split; [exact H2 |]. split; [exact H3 |]. split; [exact H4 |].
  exact (sad_before_happy (js "I am sad but glad") (js "sad") (js "glad")
           H1 H2 H3 H4).
Defined.

(* ================================================================== *)
(** * C8: the session identifier *)
(* ================================================================== *)

(** C8, at the bodies [{"text":"hi"}] and
    [{"text":"hi","session_id":{"toString":1}}]: the two requests have
    the same members but [session_id], and under the same draws the
    first is answered with status 200 and the second with status 500. *)
Lemma session_id_counterexample :
  exists m1 m2 r1 r2,
    JSON.parse bodyHi = Normal (JSON.Object m1)
    /\ JSON.parse bodyHiSession = Normal (JSON.Object m2)
    /\ withoutSessionId m1 = withoutSessionId m2
    /\ handler (request bodyHi) draws 0 = (Normal r1, 2%nat)
    /\ statusCode r1 = 200%N
    /\ handler (request bodyHiSession) draws 0 = (Normal r2, 0%nat)
    /\ statusCode r2 = 500%N
    /\ handler (request bodyHi) draws 0 <> handler (request bodyHiSession) draws 0.
Proof.
  eexists _, _, _, _.
  split; [vm_compute; reflexivity |].
  split; [vm_compute; reflexivity |].
  split; [vm_compute; reflexivity |].
  split; [vm_compute; reflexivity |].
  split; [reflexivity |].
  split; [vm_compute; reflexivity |].
  split; [reflexivity |].
  vm_compute. discriminate.
Qed.

(** C8, amended: for any two requests with the same [text] field and
    the same draws, whose [session_id] fields, present or absent, are
    each converted to a string without an exception, the handler
    produces the same status code, headers and body, and reads the same
    number of draws.  Two objects that differ in [session_id] only have
    the same [text] field ([same_text]). *)
Theorem session_id_noninterference
  (event1 event2 : Event) (data1 data2 : JSON.value) (sid1 sid2 : jsstring)
  (src : nat -> JS.draw) (n : nat) :
  JSON.parse (bodyOrDefault event1) = Normal data1 ->
  JSON.parse (bodyOrDefault event2) = Normal data2 ->
  JS.get data1 (js "text") = JS.get data2 (js "text") ->
  sessionIdOf data1 = Normal sid1 ->
  sessionIdOf data2 = Normal sid2 ->
  handler event1 src n = handler event2 src n.
Proof.
  intros Hp1 Hp2 Ht Hs1 Hs2.
  rewrite !handler_run, Hp1, Hp2, !respond_run, Hs1, Hs2.
  unfold textOf. rewrite Ht. reflexivity.
Qed.

Lemma session_id_witness :
  JSON.parse (bodyOrDefault (request bodyLove))
  = Normal (JSON.Object [(js "text", JSON.String (js "I love you"))])
  /\ JSON.parse (bodyOrDefault (request bodyLoveSession))
     = Normal (JSON.Object
                 [(js "session_id",
                   JSON.Array [JSON.Null;
                               JSON.Number (JSNumber.ofDecimal false 7 0);
                               JSON.Object []]);
                  (js "text", JSON.String (js "I love you"))])
  /\ sessionIdOf (JSON.Object [(js "text", JSON.String (js "I love you"))])
     = Normal (js "default_session")
  /\ sessionIdOf (JSON.Object
                    [(js "session_id",
                      JSON.Array [JSON.Null;
                                  JSON.Number (JSNumber.ofDecimal false 7 0);
                                  JSON.Object []]);
                     (js "text", JSON.String (js "I love you"))])
     = Normal (js ",7,[object Object]")
  /\ handler (request bodyLove) draws 0 = handler (request bodyLoveSession) draws 0.
Proof.
  assert (H1 : JSON.parse (bodyOrDefault (request bodyLove))
               = Normal (JSON.Object [(js "text", JSON.String (js "I love you"))]))
    by (vm_compute; reflexivity).
  assert (H2 : JSON.parse (bodyOrDefault (request bodyLoveSession))
               = Normal (JSON.Object
                           [(js "session_id",
                             JSON.Array [JSON.Null;
                                         JSON.Number (JSNumber.ofDecimal false 7 0);
                                         JSON.Object []]);
                            (js "text", JSON.String (js "I love you"))]))
    by (vm_compute; reflexivity).
  assert (H3 : sessionIdOf (JSON.Object [(js "text", JSON.String (js "I love you"))])
               = Normal (js "default_session"))
    by (vm_compute; reflexivity).
  assert (H4 : sessionIdOf (JSON.Object
                              [(js "session_id",
                                JSON.Array [JSON.Null;
                                            JSON.Number (JSNumber.ofDecimal false 7 0);
                                            JSON.Object []]);
                               (js "text", JSON.String (js "I love you"))])
               = Normal (js ",7,[object Object]"))
    by (vm_compute; reflexivity).
  split; [exact H1 |]. split; [exact H2 |]. split; [exact H3 |]. split; [exact H4 |].
  exact (session_id_noninterference (request bodyLove) (request bodyLoveSession)
           _ _ _ _ draws 0 H1 H2 eq_refl H3 H4).
Defined.

(* ================================================================== *)
(** * C9: the catch-all *)
(* ================================================================== *)

(** C9, at the body [null]: the text is valid JSON, reading [text] from
    its value throws, and the handler returns status 500. *)
Lemma no_server_error_counterexample :
  JSON.parse (js "null") = Normal JSON.Null
  /\ textOf JSON.Null = Throw TypeError
  /\ handler (request (js "null")) draws 0
     = (Normal {| statusCode := 500;
                  headers := None;
                  responseBody := object [member "error" (quoted "Server error.")] |},
        0%nat).
Proof. repeat split; vm_compute; reflexivity. Qed.

(** C9, amended: for every request whose body is absent, empty or
    valid JSON, and for which the reading and the conversion of [text]
    and of [session_id] throw no exception, the handler returns status
    200 or status 400 and never status 500.  The exceptions are those
    of [server_error_iff]: the body [null], and a [text] or a
    [session_id] that is not convertible. *)
Theorem no_server_error
  (event : Event) (data : JSON.value) (text sid : jsstring)
  (src : nat -> JS.draw) (n : nat) :
  JSON.parse (bodyOrDefault event) = Normal data ->
  textOf data = Normal text ->
  sessionIdOf data = Normal sid ->
  exists r n',
    handler event src n = (Normal r, n')
    /\ (statusCode r = 200%N \/ statusCode r = 400%N)
    /\ statusCode r <> 500%N.
Proof.
  intros Hp Ht Hs.
  rewrite handler_run, Hp, respond_run, Ht, Hs.
  destruct (JSString.eqb text []).
  - exists badRequest, n. repeat split; [right; reflexivity | discriminate].
  - rewrite generateReply_run. eexists _, _.
    repeat split; [left; reflexivity | discriminate].
Qed.

Lemma no_server_error_witness :
  JSON.parse (bodyOrDefault {| body := None |}) = Normal (JSON.Object [])
  /\ textOf (JSON.Object []) = Normal []
  /\ sessionIdOf (JSON.Object []) = Normal (js "default_session")
  /\ exists r n',
       handler {| body := None |} draws 0 = (Normal r, n')
       /\ (statusCode r = 200%N \/ statusCode r = 400%N)
       /\ statusCode r <> 500%N.
Proof.
  assert (H1 : JSON.parse (bodyOrDefault {| body := None |}) = Normal (JSON.Object []))
    by (vm_compute; reflexivity).
  assert (H2 : textOf (JSON.Object []) = Normal []) by (vm_compute; reflexivity).
  assert (H3 : sessionIdOf (JSON.Object []) = Normal (js "default_session"))
    by (vm_compute; reflexivity).
  split; [exact H1 |]. split; [exact H2 |]. split; [exact H3 |].
  exact (no_server_error {| body := None |} (JSON.Object []) []
           (js "default_session") draws 0 H1 H2 H3).
Defined.

(* ================================================================== *)
(** * C10: a text that is present and falsy *)
(* ================================================================== *)

(** C10, at the body [{"text":0,"session_id":{"toString":1}}]: the
    text is the number 0, the conversion of [session_id] throws, and the
    handler returns status 500. *)
Lemma falsy_text_counterexample :
  exists m,
    JSON.parse bodyZeroSession = Normal (JSON.Object m)
    /\ JSON.lookup (js "text") m = Some (JSON.Number (S754_zero false))
    /\ handler (request bodyZeroSession) draws 0
       = (Normal {| statusCode := 500;
                    headers := None;
                    responseBody := object [member "error" (quoted "Server error.")] |},
          0%nat).
Proof.
  eexists. split; [vm_compute; reflexivity |].
  split; vm_compute; reflexivity.
Qed.

(** C10, amended: for every valid JSON body that is an object whose
    [text] is the number 0, [false] or [null], and whose [session_id]
    is absent or converted to a string without an exception, the
    handler returns status 400 with the body
    [{"error":"No text provided."}]: the text is replaced by the empty
    string, not converted to ["0"], ["false"] or ["null"]. *)
Theorem falsy_text_bad_request
  (event : Event) (m : list (jsstring * JSON.value)) (v : JSON.value)
  (sid : jsstring) (src : nat -> JS.draw) (n : nat) :
  JSON.parse (bodyOrDefault event) = Normal (JSON.Object m) ->
  JSON.lookup (js "text") m = Some v ->
  (v = JSON.Null \/ v = JSON.Bool false
   \/ exists neg, v = JSON.Number (S754_zero neg)) ->
  sessionIdOf (JSON.Object m) = Normal sid ->
  textOf (JSON.Object m) = Normal []
  /\ handler event src n
     = (Normal {| statusCode := 400;
                  headers := None;
                  responseBody := object [member "error" (quoted "No text provided.")] |},
        n).
Proof.
  intros Hp Hl Hv Hs.
  assert (textOf (JSON.Object m) = Normal []) as Htext.
  { unfold textOf, JS.get. rewrite Hl.
    destruct Hv as [-> | [-> | [neg ->]]]; reflexivity. }
  split; [exact Htext |].
  rewrite handler_run, Hp, (respond_empty _ sid src n Htext Hs).
  now rewrite badRequest_eq.
Qed.

Lemma falsy_text_witness :
  JSON.parse (bodyOrDefault (request bodyFalse))
  = Normal (JSON.Object [(js "text", JSON.Bool false)])
  /\ JSON.lookup (js "text") [(js "text", JSON.Bool false)] = Some (JSON.Bool false)
  /\ sessionIdOf (JSON.Object [(js "text", JSON.Bool false)])
     = Normal (js "default_session")
  /\ textOf (JSON.Object [(js "text", JSON.Bool false)]) = Normal []
  /\ handler (request bodyFalse) draws 0
     = (Normal {| statusCode := 400;
                  headers := None;
                  responseBody := object [member "error" (quoted "No text provided.")] |},
        0%nat).
Proof.
  assert (H1 : JSON.parse (bodyOrDefault (request bodyFalse))
               = Normal (JSON.Object [(js "text", JSON.Bool false)]))
    by (vm_compute; reflexivity).
  assert (H2 : JSON.lookup (js "text") [(js "text", JSON.Bool false)]
               = Some (JSON.Bool false))
    by (vm_compute; reflexivity).
  assert (H3 : sessionIdOf (JSON.Object [(js "text", JSON.Bool false)])
               = Normal (js "default_session"))
    by (vm_compute; reflexivity).
  split; [exact H1 |]. split; [exact H2 |]. split; [exact H3 |].
  exact (falsy_text_bad_request (request bodyFalse) _ (JSON.Bool false)
           (js "default_session") draws 0 H1 H2
           (or_intror (or_introl eq_refl)) H3).
Defined.

(* ================================================================== *)
(** * Further properties of the handler *)
(* ================================================================== *)

(** X1: the handler never rejects.  Every request is answered with
    status 200, 400 or 500: the 200 response carries the header
    [Content-Type: application/json] and is built after two draws, the
    400 and the 500 response carry no headers and are built without a
    draw. *)
Theorem handler_outcomes (event : Event) (src : nat -> JS.draw) (n : nat) :
  exists r n',
    handler event src n = (Normal r, n')
    /\ ((statusCode r = 200%N
         /\ headers r = Some [(js "Content-Type", js "application/json")]
         /\ n' = S (S n))
        \/ (r = {| statusCode := 400;
                   headers := None;
                   responseBody := object [member "error" (quoted "No text provided.")] |}
            /\ n' = n)
        \/ (r = {| statusCode := 500;
                   headers := None;
                   responseBody := object [member "error" (quoted "Server error.")] |}
            /\ n' = n)).
Proof.
  rewrite handler_run.
  destruct (JSON.parse (bodyOrDefault event)) as [data | e].
  - rewrite respond_run.
    destruct (textOf data) as [text | e].
    + destruct (sessionIdOf data) as [sid | e].
      * destruct (JSString.eqb text []).
        -- exists badRequest, n. split; [reflexivity |].
           right. left. split; [apply badRequest_eq | reflexivity].
        -- rewrite generateReply_run. eexists _, _. split; [reflexivity |].
           left. repeat split.
      * exists serverError, n. split; [reflexivity |].
        right. right. split; [apply serverError_eq | reflexivity].
    + exists serverError, n. split; [reflexivity |].
      right. right. split; [apply serverError_eq | reflexivity].
  - exists serverError, n. split; [reflexivity |].
    right. right. split; [apply serverError_eq | reflexivity].
Qed.

(** [String(x || d)], with its recursion followed to the end, throws
    on the blocking members and on no other. *)
Lemma orElse_blocks (x : option JSON.value) (d : jsstring) :
  if blocks x
  then JS.toString (JS.orElse x (JSON.String d)) = Throw TypeError
  else exists s, JS.toString (JS.orElse x (JSON.String d)) = Normal s.
Proof.
  unfold blocks, JS.orElse. destruct x as [v |]; [| simpl; eauto].
  destruct (JS.toBoolean v); [| simpl; eauto].
  pose proof (toString_convertible v) as H.
  destruct (convertible v); simpl; exact H.
Qed.

Lemma blocks_compound (x : option JSON.value) :
  blocks x = true -> compound x = true.
Proof.
  unfold blocks, compound. destruct x as [[| b | y | t | l | m] |];
    try (rewrite andb_false_r; discriminate); try discriminate;
    try reflexivity.
  simpl. destruct (JSON.lookup (js "toString") m); [reflexivity | discriminate].
Qed.

(** X2: what is answered with status 500.  A body that [JSON.parse]
    rejects, the body [null], and an object whose [text] or
    [session_id] is truthy and holds, at the top or inside arrays, an
    object with a member named [toString], are answered with 500.  And
    a body that is answered with 500 is rejected by [JSON.parse], or is
    [null], or is an object whose [text] or [session_id] is an array or
    an object with a member named [toString]: with members that are
    absent, [null], booleans, numbers, strings or other objects the
    status is 200 or 400. *)
Theorem server_error_causes (event : Event) (src : nat -> JS.draw) (n : nat) :
  exists r n',
    handler event src n = (Normal r, n')
    /\ (match JSON.parse (bodyOrDefault event) with
        | Throw _ => True
        | Normal JSON.Null => True
        | Normal (JSON.Object m) =>
            blocks (JSON.lookup (js "text") m) = true
            \/ blocks (JSON.lookup (js "session_id") m) = true
        | Normal _ => False
        end -> statusCode r = 500%N)
    /\ (statusCode r = 500%N ->
        match JSON.parse (bodyOrDefault event) with
        | Throw _ => True
        | Normal JSON.Null => True
        | Normal (JSON.Object m) =>
            compound (JSON.lookup (js "text") m) = true
            \/ compound (JSON.lookup (js "session_id") m) = true
        | Normal _ => False
        end).
Proof.
  rewrite handler_run.
  destruct (JSON.parse (bodyOrDefault event)) as [data | e].
  2: { exists serverError, n. split; [reflexivity |]. split; auto. }
  rewrite respond_run.
  assert (forall text,
            exists r n',
              (if JSString.eqb text [] then (Normal badRequest, n)
               else match generateReply text (detectEmotion text) src n with
                    | (Normal reply, n') =>
                        (Normal (success (detectEmotion text) reply), n')
                    | (Throw e, n') => (@Throw Response e, n')
                    end) = (Normal r, n')
              /\ statusCode r <> 500%N) as Hok.
  { intros text. destruct (JSString.eqb text []).
    - exists badRequest, n. repeat split. discriminate.
    - rewrite generateReply_run. eexists _, _. repeat split. discriminate. }
  destruct data as [| b | x | s | l | m].
  - exists serverError, n. split; [reflexivity |]. split; auto.
  - exists badRequest, n. split; [reflexivity |]. split; [intros [] | discriminate].
  - exists badRequest, n. split; [reflexivity |]. split; [intros [] | discriminate].
  - exists badRequest, n. split; [reflexivity |]. split; [intros [] | discriminate].
  - exists badRequest, n. split; [reflexivity |]. split; [intros [] | discriminate].
  - unfold textOf, sessionIdOf, JS.get.
    pose proof (orElse_blocks (JSON.lookup (js "text") m) []) as Ht.
    pose proof (orElse_blocks (JSON.lookup (js "session_id") m) (js "default_session"))
      as Hsid.
    pose proof (blocks_compound (JSON.lookup (js "text") m)) as Ct.
    pose proof (blocks_compound (JSON.lookup (js "session_id") m)) as Cs.
    destruct (blocks (JSON.lookup (js "text") m)).
    + rewrite Ht. exists serverError, n. split; [reflexivity |]. split; auto.
    + destruct Ht as [t ->].
      destruct (blocks (JSON.lookup (js "session_id") m)).
      * rewrite Hsid. exists serverError, n. split; [reflexivity |]. split; auto.
      * destruct Hsid as [sid ->].
        destruct (Hok (JSString.trim t)) as (r & n' & Hr & Hs).
        exists r, n'. split; [rewrite Hr; reflexivity |].
        split; [intros [H | H]; discriminate | intros H; destruct (Hs H)].
Qed.

Lemma server_error_causes_witness :
  exists r n',
    handler (request bodySessionOnly) draws 0 = (Normal r, n')
    /\ statusCode r = 500%N.
Proof.
  destruct (server_error_causes (request bodySessionOnly) draws 0)
    as (r & n' & Hr & Hif & _).
  exists r, n'. split; [exact Hr |].
  apply Hif. vm_compute. right. reflexivity.
Defined.

(** X3: a request without a body, with an empty body, or with a body
    that is a JSON boolean, number, string or array has no [text], and
    is answered with status 400 without a draw. *)
Theorem body_without_object (event : Event) (src : nat -> JS.draw) (n : nat) :
  (body event = None
   \/ body event = Some []
   \/ exists data,
        JSON.parse (bodyOrDefault event) = Normal data
        /\ match data with
           | JSON.Null | JSON.Object _ => False
           | _ => True
           end) ->
  handler event src n
  = (Normal {| statusCode := 400;
               headers := None;
               responseBody := object [member "error" (quoted "No text provided.")] |},
     n).
Proof.
  rewrite <- badRequest_eq.
  intros [H | [H | [data [Hp Hd]]]];
    [apply empty_body_bad_request; auto | apply empty_body_bad_request; auto |].
  rewrite handler_run, Hp.
  destruct data; try destruct Hd; reflexivity.
Qed.

Lemma body_without_object_witness :
  handler (request (quoted "not json")) draws 0
  = (Normal {| statusCode := 400;
               headers := None;
               responseBody := object [member "error" (quoted "No text provided.")] |},
     0%nat)
  /\ handler (request (js "[1,2]")) draws 0
     = (Normal {| statusCode := 400;
                  headers := None;
                  responseBody := object [member "error" (quoted "No text provided.")] |},
        0%nat).
Proof.
  split.
  - refine (body_without_object (request (quoted "not json")) draws 0
              (or_intror (or_intror (ex_intro _ (JSON.String (js "not json")) _)))).
    split; [vm_compute; reflexivity | exact I].
  - refine (body_without_object (request (js "[1,2]")) draws 0
              (or_intror (or_intror
                 (ex_intro _ (JSON.Array [JSON.Number (JSNumber.ofDecimal false 1 0);
                                          JSON.Number (JSNumber.ofDecimal false 2 0)]) _)))).
    split; [vm_compute; reflexivity | exact I].
Defined.

(** X4: the draws reach the reply alone.  Under two sequences of draws
    a request gets the same error response, or two 200 responses with
    the same emotion. *)
Theorem draws_reach_reply_only
  (event : Event) (src1 src2 : nat -> JS.draw) (n1 n2 : nat) :
  (exists r,
     (r = badRequest \/ r = serverError)
     /\ handler event src1 n1 = (Normal r, n1)
     /\ handler event src2 n2 = (Normal r, n2))
  \/ (exists emotion reply1 reply2,
        handler event src1 n1 = (Normal (success emotion reply1), S (S n1))
        /\ handler event src2 n2 = (Normal (success emotion reply2), S (S n2))
        /\ In emotion EmotionLabels).
Proof.
  assert (forall r, r = serverError ->
            (exists r0,
               (r0 = badRequest \/ r0 = serverError)
               /\ (Normal r, n1) = (Normal r0, n1)
               /\ (Normal r, n2) = (Normal r0, n2))) as Herr.
  { intros r ->. exists serverError.
    split; [right; reflexivity | split; reflexivity]. }
  rewrite !handler_run.
  destruct (JSON.parse (bodyOrDefault event)) as [data | e];
    [| left; apply Herr; reflexivity].
  rewrite !respond_run.
  destruct (textOf data) as [text | e]; [| left; apply Herr; reflexivity].
  destruct (sessionIdOf data) as [sid | e]; [| left; apply Herr; reflexivity].
  destruct (JSString.eqb text []).
  { left. exists badRequest.
    split; [left; reflexivity | split; reflexivity]. }
  right. rewrite !generateReply_run. eexists _, _, _.
  split; [reflexivity |]. split; [reflexivity |]. apply detectEmotion_label.
Qed.

(* ================================================================== *)
(** * Further properties of the classifier *)
(* ================================================================== *)

Lemma sameLetter_lowerUnit (a b : N) :
  sameLetter a b = true -> JSString.lowerUnit a = JSString.lowerUnit b.
Proof.
  unfold sameLetter, JSString.lowerUnit. intros H.
  destruct (N.eqb_spec a b) as [-> | Hab]; [reflexivity |].
  destruct (N.leb_spec 0x41 a), (N.leb_spec a 0x5A),
    (N.leb_spec 0x41 b), (N.leb_spec b 0x5A),
    (N.eqb_spec b (a + 0x20)), (N.eqb_spec a (b + 0x20)),
    (N.eqb_spec a 0x212A), (N.eqb_spec b 0x212A),
    (N.eqb_spec a 0x0130), (N.eqb_spec b 0x0130);
    simpl in *; try discriminate; try lia; subst; reflexivity.
Qed.

Lemma sameLetters_toLowerCase (s t : jsstring) :
  sameLetters s t = true -> JSString.toLowerCase s = JSString.toLowerCase t.
Proof.
  revert t. induction s as [| a s IH]; intros [| b t]; simpl; try discriminate;
    [reflexivity |].
  intros H. apply andb_true_iff in H as [Hab Hst].
  now rewrite (sameLetter_lowerUnit a b Hab), (IH t Hst).
Qed.

Lemma lowerUnit_idempotent (c : N) :
  JSString.toLowerCase (JSString.lowerUnit c) = JSString.lowerUnit c.
Proof.
  unfold JSString.toLowerCase, JSString.lowerUnit.
  destruct (N.leb_spec 0x41 c), (N.leb_spec c 0x5A),
    (N.eqb_spec c 0x212A), (N.eqb_spec c 0x0130); simpl;
    try reflexivity;
    unfold JSString.lowerUnit;
    repeat match goal with
           | |- context [(?x <=? ?y)%N] => destruct (N.leb_spec x y); try lia
           | |- context [(?x =? ?y)%N] => destruct (N.eqb_spec x y); try lia
           end; simpl; reflexivity.
Qed.

Lemma toLowerCase_app (s t : jsstring) :
  JSString.toLowerCase (s ++ t) = JSString.toLowerCase s ++ JSString.toLowerCase t.
Proof. apply flat_map_app. Qed.

Lemma toLowerCase_idempotent (s : jsstring) :
  JSString.toLowerCase (JSString.toLowerCase s) = JSString.toLowerCase s.
Proof.
  induction s as [| c s IH]; [reflexivity |].
  change (JSString.toLowerCase (c :: s))
    with (JSString.lowerUnit c ++ JSString.toLowerCase s).
  now rewrite toLowerCase_app, lowerUnit_idempotent, IH.
Qed.

(** The label is read off the lower-cased text. *)
Lemma detectEmotion_lower (s t : jsstring) :
  JSString.toLowerCase s = JSString.toLowerCase t ->
  detectEmotion s = detectEmotion t.
Proof. intros H. unfold detectEmotion. now rewrite H. Qed.

(** X5: the classifier ignores the case of ASCII letters: two texts
    that differ in the case of such letters at most have the same
    label, and so have a text and its lower-cased form. *)
Theorem detectEmotion_ignores_case :
  (forall s t : jsstring,
     sameLetters s t = true -> detectEmotion s = detectEmotion t)
  /\ (forall t : jsstring,
        detectEmotion (JSString.toLowerCase t) = detectEmotion t).
Proof.
  split.
  - intros s t H. apply detectEmotion_lower. now apply sameLetters_toLowerCase.
  - intros t. apply detectEmotion_lower. apply toLowerCase_idempotent.
Qed.

Lemma detectEmotion_ignores_case_witness :
  detectEmotion (js "I AM So Nervous") = detectEmotion (js "i am so nervous").
Proof.
  refine (proj1 detectEmotion_ignores_case (js "I AM So Nervous")
            (js "i am so nervous") _).
  vm_compute. reflexivity.
Defined.

Lemma detectEmotion_firstMatch (t : jsstring) :
  detectEmotion t = firstMatch keywordSets (JSString.toLowerCase t).
Proof. reflexivity. Qed.

(** The result of the first match is a label of the sets or
    [neutral]. *)
Lemma firstMatch_label (sets : list (jsstring * list jsstring)) (s : jsstring) :
  firstMatch sets s = js "neutral" \/ In (firstMatch sets s) (map fst sets).
Proof.
  induction sets as [| [label ws] sets IH]; simpl; [left; reflexivity |].
  destruct (existsb (fun w => JSString.includes s w) ws); [right; left; reflexivity |].
  destruct IH as [IH | IH]; [left | right; right]; exact IH.
Qed.

(** With labels that differ from one another and from [neutral], a
    label is the result when its set matches and no set before it
    does. *)
Lemma firstMatch_iff (pre post : list (jsstring * list jsstring))
  (label : jsstring) (ws : list jsstring) (s : jsstring) :
  NoDup (map fst (pre ++ (label, ws) :: post)) ->
  ~ In (js "neutral") (map fst (pre ++ (label, ws) :: post)) ->
  firstMatch (pre ++ (label, ws) :: post) s = label
  <-> someIncluded ws s = true
      /\ forallb (fun p => negb (someIncluded (snd p) s)) pre = true.
Proof.
  unfold someIncluded.
  induction pre as [| [l0 w0] pre IH]; simpl; intros Hnd Hn.
  - destruct (existsb (fun w => JSString.includes s w) ws); [tauto |].
    split; [| intros [H _]; discriminate].
    intros H. exfalso. apply NoDup_cons_iff in Hnd as [Hx _].
    destruct (firstMatch_label post s) as [E | E]; rewrite H in E.
    + apply Hn. left. exact E.
    + exact (Hx E).
  - apply NoDup_cons_iff in Hnd as [Hx Hnd'].
    destruct (existsb (fun w => JSString.includes s w) w0); simpl.
    + split; [| intros [_ H]; discriminate].
      intros ->. exfalso. apply Hx. rewrite map_app. apply in_or_app.
      right. left. reflexivity.
    + apply IH; [exact Hnd' | tauto].
Qed.

Lemma keywordSets_labels :
  NoDup (map fst keywordSets) /\ ~ In (js "neutral") (map fst keywordSets).
Proof.
  vm_compute. split.
  - repeat constructor; simpl; intuition discriminate.
  - intuition discriminate.
Qed.

(** X6: the priority of the sets, for every label: the classifier
    returns the label of a set exactly when a keyword of the set occurs
    in the lower-cased text and no keyword of a set tested before it
    does. *)
Theorem detectEmotion_priority
  (t label : jsstring) (ws : list jsstring)
  (pre post : list (jsstring * list jsstring)) :
  keywordSets = pre ++ (label, ws) :: post ->
  (detectEmotion t = label
   <-> someIncluded ws (JSString.toLowerCase t) = true
       /\ forallb (fun p => negb (someIncluded (snd p) (JSString.toLowerCase t))) pre
          = true).
Proof.
  intros E. rewrite detectEmotion_firstMatch.
  destruct keywordSets_labels as [Hnd Hn]. rewrite E in *.
  now apply firstMatch_iff.
Qed.

Lemma detectEmotion_priority_witness :
  detectEmotion (js "I love this but I am worried") = js "anxious"
  <-> someIncluded [js "anxious"; js "scared"; js "nervous"; js "worried"; js "panic"]
        (JSString.toLowerCase (js "I love this but I am worried")) = true
      /\ forallb (fun p => negb (someIncluded (snd p)
                                   (JSString.toLowerCase (js "I love this but I am worried"))))
           (firstn 3 keywordSets) = true.
Proof.
  exact (detectEmotion_priority (js "I love this but I am worried") (js "anxious")
           [js "anxious"; js "scared"; js "nervous"; js "worried"; js "panic"]
           (firstn 3 keywordSets) (skipn 4 keywordSets) eq_refl).
Defined.

Lemma existsb_flat_map {A B : Type} (f : B -> bool) (g : A -> list B) (l : list A) :
  existsb f (flat_map g l) = existsb (fun x => existsb f (g x)) l.
Proof.
  induction l as [| x l IH]; [reflexivity |].
  simpl. now rewrite existsb_app, IH.
Qed.

Lemma firstMatch_neutral (sets : list (jsstring * list jsstring)) (s : jsstring) :
  ~ In (js "neutral") (map fst sets) ->
  firstMatch sets s = js "neutral"
  <-> existsb (fun p => someIncluded (snd p) s) sets = false.
Proof.
  unfold someIncluded.
  induction sets as [| [label ws] sets IH]; simpl; intros Hn; [tauto |].
  destruct (existsb (fun w => JSString.includes s w) ws); simpl.
  - split; [| discriminate]. intros ->. exfalso. apply Hn. left. reflexivity.
  - apply IH. tauto.
Qed.

(** X7: the classifier returns [neutral] exactly when none of its 25
    keywords occurs in the lower-cased text. *)
Theorem detectEmotion_neutral (t : jsstring) :
  detectEmotion t = js "neutral"
  <-> existsb (fun w => JSString.includes (JSString.toLowerCase t) w) allKeywords
      = false.
Proof.
  rewrite detectEmotion_firstMatch. unfold allKeywords.
  rewrite existsb_flat_map.
  apply firstMatch_neutral. apply keywordSets_labels.
Qed.

Lemma startsWith_nil (s : jsstring) : JSString.startsWith s [] = true.
Proof. destruct s; reflexivity. Qed.

Lemma startsWith_app (s w b : jsstring) :
  JSString.startsWith s w = true -> JSString.startsWith (s ++ b) w = true.
Proof.
  revert s. induction w as [| x w IH]; intros s;
    [intros _; apply startsWith_nil |].
  destruct s as [| c s]; simpl; [discriminate |].
  intros H. apply andb_true_iff in H as [Hx Hw].
  now rewrite Hx, (IH s Hw).
Qed.

Lemma includes_unfold (s w : jsstring) :
  JSString.includes s w
  = JSString.startsWith s w
    || match s with
       | [] => false
       | _ :: s' => JSString.includes s' w
       end.
Proof. destruct s; reflexivity. Qed.

Lemma includes_app_r (s w b : jsstring) :
  JSString.includes s w = true -> JSString.includes (s ++ b) w = true.
Proof.
  induction s as [| c s IH]; intros H; rewrite includes_unfold in H.
  - rewrite orb_false_r in H. destruct w; [| discriminate].
    rewrite includes_unfold, startsWith_nil. reflexivity.
  - apply orb_true_iff in H as [H | H].
    + apply (startsWith_app _ _ b) in H.
      rewrite includes_unfold, H. reflexivity.
    + change ((c :: s) ++ b) with (c :: (s ++ b)).
      rewrite includes_unfold, (IH H). apply orb_true_r.
Qed.

Lemma includes_app_l (a s w : jsstring) :
  JSString.includes s w = true -> JSString.includes (a ++ s) w = true.
Proof.
  intros H. induction a as [| c a IH]; [exact H |].
  change ((c :: a) ++ s) with (c :: (a ++ s)).
  rewrite includes_unfold, IH. apply orb_true_r.
Qed.

(** A set that matches a text matches the text between any two
    others. *)
Lemma someIncluded_extend (l : list jsstring) (a t b : jsstring) :
  someIncluded l (JSString.toLowerCase t) = true ->
  someIncluded l (JSString.toLowerCase (a ++ t ++ b)) = true.
Proof.
  unfold someIncluded. intros H.
  apply existsb_exists in H as [w [Hw Hi]].
  apply existsb_exists. exists w. split; [exact Hw |].
  rewrite !toLowerCase_app. apply includes_app_l, includes_app_r, Hi.
Qed.

(** X8: text added before or after a message never moves its label
    down the order of the tests: a message that is [sad] stays [sad],
    and one that is [happy] stays [happy] or becomes [sad]. *)
Theorem detectEmotion_extend (a t b : jsstring) :
  (rank (detectEmotion (a ++ t ++ b)) <= rank (detectEmotion t))%nat.
Proof.
  unfold detectEmotion.
  repeat match goal with
         | |- context [if someIncluded ?l (JSString.toLowerCase t) then _ else _] =>
             destruct (someIncluded l (JSString.toLowerCase t)) eqn:?
         end;
    repeat match goal with
           | H : someIncluded ?l (JSString.toLowerCase t) = true |- _ =>
               apply (someIncluded_extend l a t b) in H; rewrite ?H
           end;
    repeat match goal with
           | |- context [if ?c then _ else _] => destruct c eqn:?
           end;
    try discriminate; vm_compute; repeat constructor.
Qed.

(* ================================================================== *)
(** * Further properties of the reply *)
(* ================================================================== *)

Lemma trimStart_head (s : jsstring) :
  JSString.trimStart s = []
  \/ exists c r, JSString.trimStart s = c :: r /\ JSString.isWhiteSpace c = false.
Proof.
  induction s as [| c s IH]; simpl; [left; reflexivity |].
  destruct (JSString.isWhiteSpace c) eqn:E; [exact IH | right; eauto].
Qed.

Lemma trimStart_snoc (y : jsstring) (c : N) :
  JSString.isWhiteSpace c = false ->
  JSString.trimStart (y ++ [c]) = JSString.trimStart y ++ [c].
Proof.
  intros Hc. induction y as [| d y IH]; simpl; [now rewrite Hc |].
  destruct (JSString.isWhiteSpace d); [exact IH | reflexivity].
Qed.

(** A trimmed text that is not empty starts with a code unit that is
    no white space, and ends with one. *)
Lemma trim_shape (t : jsstring) :
  JSString.trim t <> [] ->
  endsInWord (JSString.trim t) = true
  /\ exists c s, JSString.trim t = c :: s /\ JSString.isWhiteSpace c = false.
Proof.
  unfold JSString.trim, JSString.trimEnd. intros Hne.
  destruct (trimStart_head t) as [E | [c [r [E Hc]]]]; rewrite E in *;
    [destruct Hne; reflexivity |].
  simpl rev in *. rewrite (trimStart_snoc (rev r) c Hc) in *.
  rewrite rev_app_distr in *. simpl in *.
  split; [| eauto].
  destruct (trimStart_head (rev r)) as [E' | [d [r' [E' Hd]]]]; rewrite E'.
  - simpl. now rewrite Hc.
  - simpl rev. destruct (rev r' ++ [d]) as [| x l] eqn:El.
    + apply app_eq_nil in El as [_ El]. discriminate.
    + change (endsInWord (c :: x :: l) = true).
      unfold endsInWord.
      change (last (c :: x :: l) 0%N) with (last (x :: l) 0%N).
      rewrite <- El, last_last, Hd. reflexivity.
Qed.

Lemma endsInWord_tail (c : N) (s : jsstring) :
  endsInWord (c :: s) = true ->
  endsInWord s = true /\ (s = [] -> JSString.isWhiteSpace c = false).
Proof.
  destruct s as [| d s]; simpl.
  - intros H. apply negb_true_iff in H. auto.
  - intros H. split; [exact H | discriminate].
Qed.

Lemma isWord_rev (cur : jsstring) :
  cur <> [] ->
  forallb (fun c => negb (JSString.isWhiteSpace c)) cur = true ->
  isWord (rev cur) = true.
Proof.
  intros Hne Hcur. unfold isWord. apply andb_true_iff. split.
  - destruct (rev cur) as [| x l] eqn:E; [| reflexivity].
    apply (f_equal (@rev N)) in E. rewrite rev_involutive in E. contradiction.
  - apply forallb_forall. intros x Hx. apply in_rev in Hx.
    rewrite forallb_forall in Hcur. now apply Hcur.
Qed.

(** The pieces of a text that ends in a word are words, when the
    piece being read is one or the reading stands after white space. *)
Lemma splitFrom_words (s cur : jsstring) (sep : bool) :
  forallb (fun c => negb (JSString.isWhiteSpace c)) cur = true ->
  (sep = false -> cur <> []) ->
  (sep = true -> cur = [] /\ s <> []) ->
  endsInWord s = true ->
  forallb isWord (JSString.splitFrom s cur sep) = true.
Proof.
  revert cur sep. induction s as [| c s IH]; intros cur sep Hcur Hf Ht He.
  - destruct sep; [destruct (Ht eq_refl) as [_ H]; congruence |].
    simpl. rewrite (isWord_rev cur (Hf eq_refl) Hcur). reflexivity.
  - destruct (endsInWord_tail c s He) as [He' Hlast].
    simpl. destruct (JSString.isWhiteSpace c) eqn:Ec.
    + assert (s <> []) as Hs by (intros E; specialize (Hlast E); congruence).
      destruct sep.
      * apply IH; auto; discriminate.
      * simpl. rewrite (isWord_rev cur (Hf eq_refl) Hcur). simpl.
        apply IH; auto; discriminate.
    + apply IH; auto.
      * simpl. now rewrite Ec, Hcur.
      * discriminate.
      * discriminate.
Qed.

(** X9: the words of a text that is not blank are words: none is
    empty and none holds white space.  So joining them with single
    spaces and splitting again gives the same words, and the same
    reflection clause: the clause normalises the white space of the
    text. *)
Theorem words_normalised (t : jsstring) :
  JSString.trim t <> [] ->
  forallb isWord (wordsOf t) = true
  /\ wordsOf (JSString.join (js " ") (wordsOf t)) = wordsOf t
  /\ reflection (JSString.join (js " ") (wordsOf t)) = reflection t.
Proof.
  intros Hne.
  assert (forallb isWord (wordsOf t) = true) as Hw.
  { destruct (trim_shape t Hne) as [He [c [s [E Hc]]]].
    unfold wordsOf, JSString.splitWhiteSpace. rewrite E in *.
    destruct (endsInWord_tail c s He) as [He' _].
    simpl. rewrite Hc. apply splitFrom_words; auto.
    - simpl. now rewrite Hc.
    - discriminate.
    - discriminate. }
  assert (wordsOf (JSString.join (js " ") (wordsOf t)) = wordsOf t) as Hr.
  { apply wordsOf_join; [| exact Hw].
    pose proof (wordsOf_length t) as Hl. intros E. rewrite E in Hl.
    simpl in Hl. lia. }
  split; [exact Hw |]. split; [exact Hr |].
  unfold reflection. now rewrite Hr.
Qed.

Lemma words_normalised_witness :
  JSString.trim [0x20; 0x61; 0x09; 0x0A; 0x62; 0x20; 0x20; 0x63; 0x20]%N <> []
  /\ wordsOf [0x20; 0x61; 0x09; 0x0A; 0x62; 0x20; 0x20; 0x63; 0x20]%N
     = [js "a"; js "b"; js "c"]
  /\ forallb isWord (wordsOf [0x20; 0x61; 0x09; 0x0A; 0x62; 0x20; 0x20; 0x63; 0x20]%N)
     = true
  /\ wordsOf (JSString.join (js " ")
                (wordsOf [0x20; 0x61; 0x09; 0x0A; 0x62; 0x20; 0x20; 0x63; 0x20]%N))
     = wordsOf [0x20; 0x61; 0x09; 0x0A; 0x62; 0x20; 0x20; 0x63; 0x20]%N
  /\ reflection (JSString.join (js " ")
                   (wordsOf [0x20; 0x61; 0x09; 0x0A; 0x62; 0x20; 0x20; 0x63; 0x20]%N))
     = reflection [0x20; 0x61; 0x09; 0x0A; 0x62; 0x20; 0x20; 0x63; 0x20]%N.
Proof.
  assert (H : JSString.trim [0x20; 0x61; 0x09; 0x0A; 0x62; 0x20; 0x20; 0x63; 0x20]%N
              <> []) by (vm_compute; discriminate).
  split; [exact H |]. split; [vm_compute; reflexivity |].
  exact (words_normalised [0x20; 0x61; 0x09; 0x0A; 0x62; 0x20; 0x20; 0x63; 0x20]%N H).
Defined.

(** X10: the reflection clause is never empty, so the branch of
    [generateReply] that leaves it out is never taken: [split] returns
    one piece even for a blank text, whose clause is [You said: ""];
    every clause starts with [You said: ] and a double quote and ends
    with a double quote. *)
Theorem reflection_never_empty :
  (forall t : jsstring,
     JSString.trim t = [] ->
     wordsOf t = [[]] /\ reflection t = js "You said: " ++ dquote ++ dquote)
  /\ (forall t : jsstring,
        exists inner, reflection t = js "You said: " ++ dquote ++ inner ++ dquote)
  /\ (forall t : jsstring, reflection t <> []).
Proof.
  split; [| split].
  - intros t Ht. unfold reflection, wordsOf. rewrite Ht. split; reflexivity.
  - intros t. unfold reflection.
    assert ((0 <? List.length (wordsOf t))%nat = true) as ->
      by (apply Nat.ltb_lt; apply wordsOf_length).
    eexists. rewrite (app_assoc (JSString.join _ _)). reflexivity.
  - intros t E. pose proof (reflection_nonempty t) as H. rewrite E in H.
    discriminate.
Qed.

Lemma reflection_never_empty_witness :
  JSString.trim (js "   ") = []
  /\ wordsOf (js "   ") = [[]]
  /\ reflection (js "   ") = js "You said: " ++ dquote ++ dquote.
Proof.
  assert (H : JSString.trim (js "   ") = []) by (vm_compute; reflexivity).
  split; [exact H |].
  exact (proj1 reflection_never_empty (js "   ") H).
Defined.

(** X11: for every text, both banks have a list of their own for the
    label that the classifier returns, each of two phrases: in the
    handler the fallback to the neutral lists is never taken. *)
Theorem banks_cover_labels (t : jsstring) :
  exists lv ls,
    entry VALIDATION (detectEmotion t) = Some lv
    /\ entry SUGGESTIONS (detectEmotion t) = Some ls
    /\ phrases VALIDATION (detectEmotion t) = lv
    /\ phrases SUGGESTIONS (detectEmotion t) = ls
    /\ List.length lv = 2%nat
    /\ List.length ls = 2%nat.
Proof.
  destruct (phrases_label (detectEmotion t) (detectEmotion_label t))
    as (Hv & Hs & Lv & Ls & _).
  exists (phrases VALIDATION (detectEmotion t)),
    (phrases SUGGESTIONS (detectEmotion t)).
  repeat split; assumption.
Qed.

(** The reply as the two phrases that the draws select, around the
    reflection clause. *)
Lemma generateReply_nth
  (userText emotion : jsstring) (src : nat -> JS.draw) (n : nat) :
  In emotion EmotionLabels ->
  generateReply userText emotion src n
  = (Normal (nth (indexOfTwo (src n)) (phrases VALIDATION emotion) []
             ++ js " " ++ reflection userText ++ js " "
             ++ nth (indexOfTwo (src (S n))) (phrases SUGGESTIONS emotion) []),
     S (S n)).
Proof.
  intros Hl.
  destruct (phrases_label emotion Hl) as (_ & _ & Hv & Hs & Hvn & Hsn).
  rewrite generateReply_run, (pick_two _ (src n) Hv), (pick_two _ (src (S n)) Hs).
  set (val := nth (indexOfTwo (src n)) (phrases VALIDATION emotion) []).
  set (sug := nth (indexOfTwo (src (S n))) (phrases SUGGESTIONS emotion) []).
  assert (In val (phrases VALIDATION emotion)) as Hiv.
  { apply nth_In. rewrite Hv. unfold indexOfTwo. destruct (belowHalf _); lia. }
  assert (In sug (phrases SUGGESTIONS emotion)) as His.
  { apply nth_In. rewrite Hs. unfold indexOfTwo. destruct (belowHalf _); lia. }
  change [Some val; Some (reflection userText); Some sug]
    with (map Some [val; reflection userText; sug]).
  rewrite filterBoolean_Some.
  rewrite forallb_forall in Hvn, Hsn.
  unfold nonEmptyPieces. simpl filter.
  rewrite (Hvn val Hiv), (Hsn sug His), reflection_nonempty. reflexivity.
Qed.

(** X12: how the draws select the phrases.  For every label, a draw
    below one half selects the first phrase of the list and any other
    draw the second, the first draw in the validation list and the
    second draw in the suggestion list; the reply is the two selected
    phrases around the reflection clause. *)
Theorem generateReply_selection
  (userText emotion : jsstring) (src : nat -> JS.draw) (n : nat) :
  In emotion EmotionLabels ->
  generateReply userText emotion src n
  = (Normal (nth (indexOfTwo (src n)) (phrases VALIDATION emotion) []
             ++ js " " ++ reflection userText ++ js " "
             ++ nth (indexOfTwo (src (S n))) (phrases SUGGESTIONS emotion) []),
     S (S n)).
Proof. exact (generateReply_nth userText emotion src n). Qed.

Lemma generateReply_selection_witness :
  In (js "angry") EmotionLabels
  /\ generateReply (js "I am furious") (js "angry") draws 0
     = (Normal (nth (indexOfTwo (draws 0)) (phrases VALIDATION (js "angry")) []
                ++ js " " ++ reflection (js "I am furious") ++ js " "
                ++ nth (indexOfTwo (draws 1)) (phrases SUGGESTIONS (js "angry")) []),
        2%nat).
Proof.
  assert (H : In (js "angry") EmotionLabels) by (right; right; left; reflexivity).
  split; [exact H |].
  exact (generateReply_selection (js "I am furious") (js "angry") draws 0 H).
Defined.

(** The reply to [I am furious] under the draws 1/2 and 1/3. *)
Example generateReply_selection_example :
  nth (indexOfTwo (draws 0)) (phrases VALIDATION (js "angry")) []
  ++ js " " ++ reflection (js "I am furious") ++ js " "
  ++ nth (indexOfTwo (draws 1)) (phrases SUGGESTIONS (js "angry")) []
  = js "Anger is a natural reaction. You said: " ++ dquote
    ++ js "I am furious" ++ dquote ++ js " Try slow 4-4-4 breathing.".
Proof. vm_compute. reflexivity. Qed.

(** The two validation phrases of a label differ in their first 11
    code units. *)
Lemma validation_prefixes (emotion : jsstring) :
  In emotion EmotionLabels ->
  firstn 11 (nth 0 (phrases VALIDATION emotion) [])
  <> firstn 11 (nth 1 (phrases VALIDATION emotion) [])
  /\ (11 <= List.length (nth 0 (phrases VALIDATION emotion) []))%nat
  /\ (11 <= List.length (nth 1 (phrases VALIDATION emotion) []))%nat.
Proof.
  unfold EmotionLabels. simpl.
  intros [<- | [<- | [<- | [<- | [<- | [<- | [<- | []]]]]]]];
    vm_compute; (split; [discriminate | split; repeat constructor]).
Qed.

(** Two replies that start with the two validation phrases of a label
    differ, whatever follows the phrases. *)
Lemma replies_differ (emotion x y : jsstring) :
  In emotion EmotionLabels ->
  nth 0 (phrases VALIDATION emotion) [] ++ x
  <> nth 1 (phrases VALIDATION emotion) [] ++ y.
Proof.
  intros Hl E.
  destruct (validation_prefixes emotion Hl) as (Hd & L0 & L1).
  apply (f_equal (firstn 11)) in E.
  rewrite !firstn_app in E.
  replace (11 - List.length (nth 0 (phrases VALIDATION emotion) []))%nat
    with 0%nat in E by lia.
  replace (11 - List.length (nth 1 (phrases VALIDATION emotion) []))%nat
    with 0%nat in E by lia.
  simpl in E. rewrite !app_nil_r in E. exact (Hd E).
Qed.

(** X13: the reply is not determined by the request.  For every text
    and label, two first draws on the two sides of one half give two
    different replies, whatever the second draws are. *)
Theorem generateReply_depends_on_draw
  (userText emotion : jsstring) (src1 src2 : nat -> JS.draw) (n1 n2 : nat) :
  In emotion EmotionLabels ->
  belowHalf (src1 n1) = true ->
  belowHalf (src2 n2) = false ->
  fst (generateReply userText emotion src1 n1)
  <> fst (generateReply userText emotion src2 n2).
Proof.
  intros Hl H1 H2.
  rewrite !(generateReply_nth _ _ _ _ Hl). simpl fst.
  unfold indexOfTwo at 1 3. rewrite H1, H2.
  intros [= E]. exact (replies_differ emotion _ _ Hl E).
Qed.

Lemma generateReply_depends_on_draw_witness :
  In (js "love") EmotionLabels
  /\ belowHalf (always third 0) = true
  /\ belowHalf (always half 0) = false
  /\ fst (generateReply (js "I love you") (js "love") (always third) 0)
     <> fst (generateReply (js "I love you") (js "love") (always half) 0).
Proof.
  assert (H : In (js "love") EmotionLabels)
    by (right; right; right; right; left; reflexivity).
  assert (H1 : belowHalf (always third 0) = true) by reflexivity.
  assert (H2 : belowHalf (always half 0) = false) by reflexivity.
  split; [exact H |]. split; [exact H1 |]. split; [exact H2 |].
  exact (generateReply_depends_on_draw (js "I love you") (js "love")
           (always third) (always half) 0 0 H H1 H2).
Defined.

(* ================================================================== *)
(** * White space around the text *)
(* ================================================================== *)









(* ================================================================== *)
(** * The body of the response *)
(* ================================================================== *)

Section ResponseBody.
Local Open Scope N_scope.

Lemma hexValue_hexDigit (d : N) : d < 16 -> JSON.hexValue (JSON.hexDigit d) = Some d.
Proof.
  intros H. destruct d as [| p]; [reflexivity |].
  do 4 (destruct p as [p | p |]; try reflexivity; try lia).
Qed.

(** The four hexadecimal digits of a code unit give the code unit. *)
Lemma unicodeEscape_value (c : N) :
  c < 0x10000 ->
  ((c / 0x1000 mod 16 * 16 + c / 0x100 mod 16) * 16 + c / 0x10 mod 16) * 16 + c mod 16 = c.
Proof.
  intros H.
  assert (H1 : c / 0x100 = c / 0x10 / 16) by (now rewrite N.Div0.div_div).
  assert (H2 : c / 0x1000 = c / 0x100 / 16) by (now rewrite N.Div0.div_div).
  assert (H3 : c / 0x1000 < 16) by (apply N.Div0.div_lt_upper_bound; lia).
  rewrite (N.mod_small _ _ H3).
  pose proof (N.div_mod c 16 ltac:(lia)) as D0.
  pose proof (N.div_mod (c / 0x10) 16 ltac:(lia)) as D1.
  pose proof (N.div_mod (c / 0x100) 16 ltac:(lia)) as D2.
  rewrite <- H1 in D1. rewrite <- H2 in D2.
  change (c / 16) with (c / 0x10) in D0.
  lia.
Qed.

Lemma chars_unicodeEscape (c : N) (rest acc : jsstring) :
  c < 0x10000 ->
  JSON.chars (JSON.unicodeEscape c ++ rest) acc = JSON.chars rest (c :: acc).
Proof.
  intros H. unfold JSON.unicodeEscape. cbn [app JSON.chars N.eqb Pos.eqb].
  rewrite !hexValue_hexDigit by (apply N.mod_lt; lia).
  now rewrite (unicodeEscape_value c H).
Qed.

Lemma escape_cons (c : N) (s1 : jsstring) :
  JSON.escape (c :: s1)
  = if c =? 0x08 then [0x5C; 0x62] ++ JSON.escape s1
    else if c =? 0x09 then [0x5C; 0x74] ++ JSON.escape s1
    else if c =? 0x0A then [0x5C; 0x6E] ++ JSON.escape s1
    else if c =? 0x0C then [0x5C; 0x66] ++ JSON.escape s1
    else if c =? 0x0D then [0x5C; 0x72] ++ JSON.escape s1
    else if c =? 0x22 then [0x5C; 0x22] ++ JSON.escape s1
    else if c =? 0x5C then [0x5C; 0x5C] ++ JSON.escape s1
    else if c <? 0x20 then JSON.unicodeEscape c ++ JSON.escape s1
    else if JSON.isLeadingSurrogate c then
      match s1 with
      | d :: s2 =>
          if JSON.isTrailingSurrogate d then c :: d :: JSON.escape s2
          else JSON.unicodeEscape c ++ JSON.escape s1
      | [] => JSON.unicodeEscape c
      end
    else if JSON.isTrailingSurrogate c then JSON.unicodeEscape c ++ JSON.escape s1
    else c :: JSON.escape s1.
Proof. destruct s1; reflexivity. Qed.

Lemma chars_plain (c : N) (s acc : jsstring) :
  (c =? 0x22) = false -> (c =? 0x5C) = false -> (c <? 0x20) = false ->
  JSON.chars (c :: s) acc = JSON.chars s (c :: acc).
Proof. intros H1 H2 H3. cbn [JSON.chars]. now rewrite H1, H2, H3. Qed.

Lemma chars_escape_length (k : nat) :
  forall s acc rest : jsstring,
    (List.length s <= k)%nat ->
    JSON.chars (JSON.escape s ++ 0x22 :: rest) acc = Some (rev acc ++ s, rest).
Proof.
  induction k as [| k IH]; intros s acc rest Hk.
  - destruct s; [| simpl in Hk; lia]. cbn. now rewrite app_nil_r.
  - destruct s as [| c s1]; [cbn; now rewrite app_nil_r |].
    assert (Hs1 : (List.length s1 <= k)%nat) by (simpl in Hk; lia).
    assert (Hsimple : forall e x,
               JSON.chars (0x5C :: e :: JSON.escape s1 ++ 0x22 :: rest) acc
               = JSON.chars (JSON.escape s1 ++ 0x22 :: rest) (x :: acc) ->
               JSON.chars (([0x5C; e] ++ JSON.escape s1) ++ 0x22 :: rest) acc
               = Some (rev acc ++ x :: s1, rest)).
    { intros e x He. cbn [app]. rewrite He, (IH s1 _ _ Hs1). cbn [rev].
      now rewrite <- app_assoc. }
    assert (Hunicode : c < 0x10000 ->
               JSON.chars ((JSON.unicodeEscape c ++ JSON.escape s1) ++ 0x22 :: rest) acc
               = Some (rev acc ++ c :: s1, rest)).
    { intros Hc. rewrite <- app_assoc, (chars_unicodeEscape c _ _ Hc), (IH s1 _ _ Hs1).
      cbn [rev]. now rewrite <- app_assoc. }
    rewrite escape_cons.
    destruct (c =? 0x08) eqn:E08;
      [apply N.eqb_eq in E08; subst c; now apply Hsimple |].
    destruct (c =? 0x09) eqn:E09;
      [apply N.eqb_eq in E09; subst c; now apply Hsimple |].
    destruct (c =? 0x0A) eqn:E0A;
      [apply N.eqb_eq in E0A; subst c; now apply Hsimple |].
    destruct (c =? 0x0C) eqn:E0C;
      [apply N.eqb_eq in E0C; subst c; now apply Hsimple |].
    destruct (c =? 0x0D) eqn:E0D;
      [apply N.eqb_eq in E0D; subst c; now apply Hsimple |].
    destruct (c =? 0x22) eqn:E22;
      [apply N.eqb_eq in E22; subst c; now apply Hsimple |].
    destruct (c =? 0x5C) eqn:E5C;
      [apply N.eqb_eq in E5C; subst c; now apply Hsimple |].
    destruct (c <? 0x20) eqn:E20;
      [apply N.ltb_lt in E20; apply Hunicode; lia |].
    destruct (JSON.isLeadingSurrogate c) eqn:EL.
    { assert (Hc : c < 0x10000).
      { unfold JSON.isLeadingSurrogate in EL. apply andb_true_iff in EL as [_ EL].
        apply N.leb_le in EL. lia. }
      destruct s1 as [| d s2].
      - rewrite (chars_unicodeEscape c _ _ Hc). reflexivity.
      - destruct (JSON.isTrailingSurrogate d) eqn:ET; [| exact (Hunicode Hc)].
        assert (Hd : 0xDC00 <= d).
        { unfold JSON.isTrailingSurrogate in ET. apply andb_true_iff in ET as [ET _].
          now apply N.leb_le in ET. }
        cbn [app]. rewrite (chars_plain c _ _ E22 E5C E20).
        rewrite chars_plain;
          [| apply N.eqb_neq; lia | apply N.eqb_neq; lia | apply N.ltb_ge; lia].
        rewrite IH by (simpl in Hs1; lia).
        cbn [rev]. now rewrite <- !app_assoc. }
    destruct (JSON.isTrailingSurrogate c) eqn:ET.
    { apply Hunicode. unfold JSON.isTrailingSurrogate in ET.
      apply andb_true_iff in ET as [_ ET]. apply N.leb_le in ET. lia. }
    cbn [app]. rewrite (chars_plain c _ _ E22 E5C E20), (IH s1 _ _ Hs1).
    cbn [rev]. now rewrite <- app_assoc.
Qed.

(** Reading back an escaped string: [chars] undoes [escape], for every
    string, lone surrogates and control characters included. *)
Lemma chars_escape (s rest : jsstring) :
  JSON.chars (JSON.escape s ++ 0x22 :: rest) [] = Some (s, rest).
Proof. exact (chars_escape_length (List.length s) s [] rest (le_n _)). Qed.

(** The body of the 200 response, around the two escaped strings. *)
Lemma success_body (emotion reply : jsstring) :
  responseBody (success emotion reply)
  = (js "{" ++ quoted "emotion" ++ js ":" ++ dquote)
    ++ JSON.escape emotion
    ++ 0x22 :: (js "," ++ quoted "scores" ++ js ":{}," ++ quoted "reply" ++ js ":" ++ dquote)
    ++ JSON.escape reply
    ++ 0x22 :: (js "," ++ quoted "history" ++ js ":[]}").
Proof.
  cbn [success responseBody JSON.stringify map fst snd JSString.join].
  unfold JSON.quote. rewrite <- !app_assoc. reflexivity.
Qed.

Ltac run_parser :=
  cbn [app JSON.element JSON.members JSON.skipSpace JSON.isSpace JSON.chars
       N.eqb Pos.eqb N.ltb N.compare Pos.compare Pos.compare_cont orb andb rev].

(** [JSON.parse] reads the body of the 200 response back, whatever the
    emotion and the reply are. *)
Lemma success_body_parse (emotion reply : jsstring) :
  JSON.parse (responseBody (success emotion reply))
  = Normal (JSON.Object [(js "emotion", JSON.String emotion);
                         (js "scores", JSON.Object []);
                         (js "reply", JSON.String reply);
                         (js "history", JSON.Array [])]).
Proof.
  unfold JSON.parse. rewrite success_body.
  set (p1 := js "{" ++ quoted "emotion" ++ js ":" ++ dquote).
  set (p2 := js "," ++ quoted "scores" ++ js ":{}," ++ quoted "reply" ++ js ":" ++ dquote).
  set (p3 := js "," ++ quoted "history" ++ js ":[]}").
  set (body := p1 ++ JSON.escape emotion ++ 0x22 :: p2 ++ JSON.escape reply ++ 0x22 :: p3).
  assert (Hf : exists f : nat,
             Nat.add (Nat.mul 2 (List.length body)) 2 = S (S (S (S (S (S f)))))).
  { exists (Nat.sub (Nat.mul 2 (List.length body)) 4).
    assert (Hl : Nat.le 12 (List.length body)).
    { unfold body. rewrite length_app. change (List.length p1) with 12%nat. lia. }
    lia. }
  destruct Hf as [f Hf]. rewrite Hf. clear Hf. unfold body. clear body.
  vm_compute in p1, p2, p3. subst p1 p2 p3.
  run_parser. rewrite chars_escape.
  run_parser. rewrite chars_escape.
  run_parser. reflexivity.
Qed.

(** X15: every response body is JSON that reads back.  [JSON.parse]
    of the body of a 200 response gives an object with the members
    [emotion], [scores], [reply] and [history] in this order, where
    [emotion] is one of the seven labels, [scores] the empty object and
    [history] the empty array, whatever characters the text brought
    into the reply; the body of a 400 or 500 response gives an object
    with the one member [error]. *)
Theorem response_body_round_trip (event : Event) (src : nat -> JS.draw) (n : nat) :
  exists r n',
    handler event src n = (Normal r, n')
    /\ ((exists emotion reply,
           statusCode r = 200
           /\ In emotion EmotionLabels
           /\ JSON.parse (responseBody r)
              = Normal (JSON.Object [(js "emotion", JSON.String emotion);
                                     (js "scores", JSON.Object []);
                                     (js "reply", JSON.String reply);
                                     (js "history", JSON.Array [])]))
        \/ (exists message,
              statusCode r <> 200
              /\ JSON.parse (responseBody r)
                 = Normal (JSON.Object [(js "error", JSON.String message)]))).
Proof.
  assert (H400 : exists r n',
             (Normal badRequest, n) = (Normal r, n')
             /\ ((exists emotion reply,
                    statusCode r = 200
                    /\ In emotion EmotionLabels
                    /\ JSON.parse (responseBody r)
                       = Normal (JSON.Object [(js "emotion", JSON.String emotion);
                                              (js "scores", JSON.Object []);
                                              (js "reply", JSON.String reply);
                                              (js "history", JSON.Array [])]))
                 \/ (exists message,
                       statusCode r <> 200
                       /\ JSON.parse (responseBody r)
                          = Normal (JSON.Object [(js "error", JSON.String message)])))).
  { exists badRequest, n. split; [reflexivity |]. right.
    exists (js "No text provided."). split; [discriminate | vm_compute; reflexivity]. }
  assert (H500 : exists r n',
             (Normal serverError, n) = (Normal r, n')
             /\ ((exists emotion reply,
                    statusCode r = 200
                    /\ In emotion EmotionLabels
                    /\ JSON.parse (responseBody r)
                       = Normal (JSON.Object [(js "emotion", JSON.String emotion);
                                              (js "scores", JSON.Object []);
                                              (js "reply", JSON.String reply);
                                              (js "history", JSON.Array [])]))
                 \/ (exists message,
                       statusCode r <> 200
                       /\ JSON.parse (responseBody r)
                          = Normal (JSON.Object [(js "error", JSON.String message)])))).
  { exists serverError, n. split; [reflexivity |]. right.
    exists (js "Server error."). split; [discriminate | vm_compute; reflexivity]. }
  rewrite handler_run.
  destruct (JSON.parse (bodyOrDefault event)) as [data | e]; [| exact H500].
  rewrite respond_run.
  destruct (textOf data) as [text | e]; [| exact H500].
  destruct (sessionIdOf data) as [sid | e]; [| exact H500].
  destruct (JSString.eqb text []); [exact H400 |].
  rewrite generateReply_run. eexists _, _. split; [reflexivity |].
  left. eexists _, _. split; [reflexivity |].
  split; [apply detectEmotion_label | apply success_body_parse].
Qed.



End ResponseBody.

(* ================================================================== *)
(** * Code without effect *)
(* ================================================================== *)

Lemma startsWith_prefix (s w d : jsstring) :
  JSString.startsWith s (w ++ d) = true -> JSString.startsWith s w = true.
Proof.
  revert s. induction w as [| x w IH]; intros s; [intros _; apply startsWith_nil |].
  destruct s as [| c s]; simpl; [discriminate |].
  intros H. apply andb_true_iff in H as [Hx Hw].
  rewrite Hx. exact (IH s Hw).
Qed.

(** A text that includes a string includes every prefix of it. *)
Lemma includes_prefix (s w d : jsstring) :
  JSString.includes s (w ++ d) = true -> JSString.includes s w = true.
Proof.
  induction s as [| c s IH]; intros H; rewrite includes_unfold in H;
    rewrite includes_unfold.
  - rewrite orb_false_r in *. exact (startsWith_prefix _ _ _ H).
  - apply orb_true_iff in H as [H | H].
    + now rewrite (startsWith_prefix _ _ _ H).
    + rewrite (IH H). apply orb_true_r.
Qed.

(** X17: the keyword [surprised] decides nothing: a text that includes
    it includes [surprise], which stands before it in the same list.
    Without it every text gets the same label. *)
Theorem surprised_keyword_redundant (t : jsstring) :
  detectEmotion t = firstMatch withoutSurprised (JSString.toLowerCase t).
Proof.
  rewrite detectEmotion_firstMatch.
  unfold withoutSurprised, keywordSets. cbn [firstn app firstMatch].
  do 5 (match goal with
        | |- context [if existsb ?f ?l then _ else _] =>
            destruct (existsb f l); [reflexivity |]
        end).
  cbn [existsb].
  destruct (JSString.includes (JSString.toLowerCase t) (js "surprise")) eqn:E;
    [reflexivity |].
  destruct (JSString.includes (JSString.toLowerCase t) (js "surprised")) eqn:E';
    [| reflexivity].
  change (js "surprised") with (js "surprise" ++ js "d") in E'.
  apply includes_prefix in E'. congruence.
Qed.

Lemma trimStart_fixed (s : jsstring) :
  JSString.trimStart (JSString.trimStart s) = JSString.trimStart s.
Proof.
  destruct (trimStart_head s) as [E | [c [r [E Hc]]]]; rewrite E; simpl;
    [reflexivity | now rewrite Hc].
Qed.

(** Trimming a trimmed string changes nothing. *)
Lemma trim_fixed (s : jsstring) :
  JSString.trim (JSString.trim s) = JSString.trim s.
Proof.
  unfold JSString.trim, JSString.trimEnd.
  destruct (trimStart_head s) as [E | [c [r [E Hc]]]]; rewrite E; [reflexivity |].
  simpl rev. rewrite (trimStart_snoc (rev r) c Hc), rev_app_distr.
  simpl app at 1. simpl JSString.trimStart at 2. rewrite Hc.
  simpl rev. rewrite rev_involutive.
  rewrite (trimStart_snoc _ c Hc), trimStart_fixed, rev_app_distr.
  reflexivity.
Qed.

Lemma textOf_trimmed (data : JSON.value) (text : jsstring) :
  textOf data = Normal text -> exists s, text = JSString.trim s.
Proof.
  unfold textOf. destruct (JS.get data (js "text")) as [x | e]; [| discriminate].
  destruct (JS.toString _) as [s | e]; [| discriminate].
  intros [= <-]. eauto.
Qed.

(** X18: the text that the handler passes on is trimmed already.  The
    [trim] of [generateReply] returns it unchanged, so the words of
    the reflection clause are the pieces of the text itself. *)
Theorem second_trim_redundant (data : JSON.value) (text : jsstring) :
  textOf data = Normal text ->
  JSString.trim text = text
  /\ wordsOf text = JSString.splitWhiteSpace text.
Proof.
  intros H. destruct (textOf_trimmed data text H) as [s ->].
  unfold wordsOf. rewrite trim_fixed. split; reflexivity.
Qed.

Lemma second_trim_redundant_witness :
  textOf (JSON.Object [(js "text", JSON.String (js "  so glad "))])
  = Normal (js "so glad")
  /\ JSString.trim (js "so glad") = js "so glad"
  /\ wordsOf (js "so glad") = JSString.splitWhiteSpace (js "so glad").
Proof.
  assert (H : textOf (JSON.Object [(js "text", JSON.String (js "  so glad "))])
              = Normal (js "so glad")) by (vm_compute; reflexivity).
  split; [exact H |].
  exact (second_trim_redundant _ _ H).
Defined.

(** X19: a key that [Object.prototype] defines gets no phrase.  Under
    [constructor], [toString] and the other names of the prototype the
    banks hold no list and the fallback to the neutral lists is not
    taken, for the inherited property is truthy; it has no elements,
    so [val] and [sug] are [undefined] and the reply is the reflection
    clause alone, after two draws. *)
Theorem generateReply_inherited
  (userText emotion : jsstring) (src : nat -> JS.draw) (n : nat) :
  existsb (JSString.eqb emotion) prototypeNames = true ->
  generateReply userText emotion src n = (Normal (reflection userText), S (S n)).
Proof.
  intros H.
  assert (Hp : forall bank, phrases bank emotion = []).
  { apply existsb_exists in H as [k [Hin Hk]]. apply eqb_eq in Hk. subst k.
    unfold prototypeNames in Hin. simpl in Hin.
    intros bank.
    repeat (destruct Hin as [<- | Hin]; [reflexivity |]). destruct Hin. }
  rewrite generateReply_run, !Hp, !pick_nil.
  pose proof (reflection_nonempty userText) as Hr.
  destruct (reflection userText) as [| c r]; [discriminate | reflexivity].
Qed.

Lemma generateReply_inherited_witness :
  existsb (JSString.eqb (js "constructor")) prototypeNames = true
  /\ generateReply (js "hi there") (js "constructor") draws 0
     = (Normal (js "You said: " ++ dquote ++ js "hi there" ++ dquote), 2%nat).
Proof.
  assert (H : existsb (JSString.eqb (js "constructor")) prototypeNames = true)
    by (vm_compute; reflexivity).
  split; [exact H |].
  rewrite (generateReply_inherited (js "hi there") (js "constructor") draws 0 H).
  vm_compute. reflexivity.
Defined.
